(** * IPython.config.loader: the Config container and its loaders

    A shallow embedding of [src/IPython/config/loader.py].  Python objects
    live in an explicit heap, so that two names for one [Config] instance are
    one location; every operation threads the heap and may raise.

    Text is a [string] of bytes, the UTF-8 form of a Python [str].  Where the
    answer of the code depends on a character outside ASCII ([str.upper],
    the class [\w] of a regular expression), or on host code that is not
    described here, the outcome is [Outside]: the embedding says nothing
    about such a run. *)

From Stdlib Require Import ZArith String Ascii List Lia.
From stdpp Require Import gmap strings list fin_maps.

Local Open Scope string_scope.
Local Open Scope list_scope.

(** ** Values, objects and the heap *)

Abbreviation loc := nat (only parsing).

(** What a dictionary slot or a variable can hold.  Mutable containers are
    references into the heap. *)
Inductive value :=
| VNone
| VBool (b : bool)
| VInt (z : Z)
| VStr (s : string)
| VBuiltin (name : string)   (* an attribute of a module *)
| VMethod (name : string)    (* a bound method *)
| VRef (l : loc).

(** A dictionary keeps its entries in the order in which their keys were
    first stored. *)
Abbreviation dict := (list (string * value)) (only parsing).

Global Instance dict_empty : Empty (list (string * value)) := [].

(** [Config] is a subclass of [dict]; [isinstance(v, Config)] tells them
    apart, [isinstance(v, dict)] holds of both. *)
Inductive obj :=
| OConfig (d : dict)
| ODict (d : dict).

Abbreviation heap := (list obj) (only parsing).

Inductive arg_error :=
| UnrecognizedFlag (item : string)
| InvalidArgument (item : string).

(** [RecursionError] is what the interpreter raises when the nesting of
    calls passes its limit (a [RuntimeError]). *)
Inductive exn :=
| NameError
| SyntaxError
| AttributeError
| KeyError (k : string)
| IndexError
| TypeError
| ValueError
| ConfigError
| IOError
| RecursionError
| ArgumentError (m : arg_error).

Global Instance value_eq_dec : EqDecision value.
Proof. unfold EqDecision, Decision; decide equality; apply (_ : EqDecision _). Defined.

Global Instance arg_error_eq_dec : EqDecision arg_error.
Proof. unfold EqDecision, Decision; decide equality; apply (_ : EqDecision _). Defined.

Global Instance exn_eq_dec : EqDecision exn.
Proof. unfold EqDecision, Decision; decide equality; apply (_ : EqDecision _). Defined.

(** ** The entries of a dictionary *)

(** [d[k]] *)
Fixpoint entries_get (d : dict) (k : string) : option value :=
  match d with
  | [] => None
  | (k', v) :: rest => if String.eqb k' k then Some v else entries_get rest k
  end.

(** [d[k] = v]: a key that is there keeps its place, a new key goes last. *)
Fixpoint entries_set (d : dict) (k : string) (v : value) : dict :=
  match d with
  | [] => [(k, v)]
  | (k', v') :: rest =>
      if String.eqb k' k then (k', v) :: rest
      else (k', v') :: entries_set rest k v
  end.

(** [del d[k]] *)
Fixpoint entries_del (d : dict) (k : string) : dict :=
  match d with
  | [] => []
  | (k', v') :: rest =>
      if String.eqb k' k then entries_del rest k
      else (k', v') :: entries_del rest k
  end.

(** [d.update(m)]: the entries of [m], in the order of [m]. *)
Fixpoint entries_update (d m : dict) : dict :=
  match m with
  | [] => d
  | (k, v) :: rest => entries_update (entries_set d k v) rest
  end.

(** ** A state monad in which a raise keeps the state

    A Python exception does not roll back what was mutated before it, so the
    state is returned next to every outcome. *)

Inductive outcome (A : Type) :=
| Ok (a : A)
| Raise (e : exn)
| Outside.
Arguments Ok {A} a.
Arguments Raise {A} e.
Arguments Outside {A}.

Definition M (S A : Type) := S -> outcome A * S.

Definition ret {S A} (a : A) : M S A := fun s => (Ok a, s).
Definition raise {S A} (e : exn) : M S A := fun s => (Raise e, s).
Definition outside {S A} : M S A := fun s => (Outside, s).

Definition bind {S A B} (m : M S A) (k : A -> M S B) : M S B :=
  fun s =>
    match m s with
    | (Ok a, s') => k a s'
    | (Raise e, s') => (Raise e, s')
    | (Outside, s') => (Outside, s')
    end.

(** [try: m  except <handles>: h] *)
Definition catch {S A} (m : M S A) (handles : exn -> bool) (h : M S A) : M S A :=
  fun s =>
    match m s with
    | (Raise e, s') => if handles e then h s' else (Raise e, s')
    | r => r
    end.

(** [try: m  except KeyError as e: raise AttributeError(e)] *)
Definition key_to_attribute_error {S A} (m : M S A) : M S A :=
  fun s =>
    match m s with
    | (Raise (KeyError _), s') => (Raise AttributeError, s')
    | r => r
    end.

Definition lift_outcome {S A} (o : outcome A) : M S A := fun s => (o, s).

Notation "x <- m ;; k" := (bind m (fun x => k))
  (at level 100, m at next level, right associativity).
Notation "m ;;; k" := (bind m (fun _ => k))
  (at level 100, right associativity).

(** ** The host interpreter

    What [loader.py] takes from outside: the attributes Python finds on the
    class before [__getattr__] is asked, the names that cannot follow a dot
    in source text, the running of the right-hand side of an [exec]'d
    assignment, and the file system collaborators imported from
    [IPython.utils.path] and [IPython.core.profiledir]. *)

(** A configuration script, seen through the two callables of its namespace:
    [c = get_config(); c.p1.p2.key = v] and [load_subconfig(fname, profile)]. *)
Inductive stmt :=
| SAssign (path : list string) (v : value)
| SLoadSubconfig (fname : string) (profile : option string).

Definition script := list stmt.

(** The local names of [KeyValueConfigLoader.load_config] that the text
    handed to [exec] can read: the two tables and the token being loaded
    with its two halves. *)
Record exec_env := {
  env_aliases : gmap string string;
  env_flags : gmap string (value * string);
  env_item : string;
  env_lhs : string;
  env_rhs : string
}.

Class Host := {
  (** names bound on [Config], [dict] or [object]: methods and the like *)
  class_attr : string -> bool;
  (** words that cannot be an attribute name in source text *)
  keyword : string -> bool;
  (** running the right-hand side [env_rhs] of the statement
      ['self.config.' + lhs + '=' + rhs]: from the heap, the loader's
      [config] and its [extra_args], the value of the expression or the
      error raised by compiling or evaluating it, and what became of the
      three (an expression can call anything: [self] is in scope).
      [Outside] when the text after the [=] is not one expression, when its
      value is none of [value], or when running it has an effect that the
      three do not show: on the tables, on a module, on an object that is
      no dictionary. *)
  eval_expr : exec_env -> heap * loc * list string ->
              outcome value * (heap * loc * list string);
  (** [filefind(filename, path)]: the full name, or [None] for [IOError] *)
  filefind : string -> list string -> option string;
  (** [ProfileDir.find_profile_dir_by_name(get_ipython_dir(), profile)
      .location], or [None] for [ProfileDirError] *)
  find_profile_dir_by_name : string -> option string;
  (** the statements of the file at a full name *)
  read_script : string -> script
}.

(** ** Heap primitives: [dict] methods called on the raw dictionary *)

Definition obj_dict (o : obj) : dict :=
  match o with OConfig d => d | ODict d => d end.

Definition obj_with_dict (o : obj) (d : dict) : obj :=
  match o with OConfig _ => OConfig d | ODict _ => ODict d end.

Definition alloc (o : obj) : M heap loc :=
  fun h => (Ok (List.length h), h ++ [o]).

(** The dictionary behind a reference.  A reference to nothing is no state
    of a program. *)
Definition dict_of (l : loc) : M heap dict :=
  fun h =>
    match h !! l with
    | Some o => (Ok (obj_dict o), h)
    | None => (Outside, h)
    end.

(** [dict.__setitem__(self, key, value)] *)
Definition dict_setitem (l : loc) (key : string) (v : value) : M heap unit :=
  fun h =>
    match h !! l with
    | Some o => (Ok tt, <[l := obj_with_dict o (entries_set (obj_dict o) key v)]> h)
    | None => (Outside, h)
    end.

(** [dict.__getitem__(self, key)] *)
Definition dict_getitem (l : loc) (key : string) : M heap value :=
  d <- dict_of l ;;
  match entries_get d key with
  | Some v => ret v
  | None => raise (KeyError key)
  end.

(** [dict.__contains__(self, key)] *)
Definition dict_contains (l : loc) (key : string) : M heap bool :=
  d <- dict_of l ;;
  ret (match entries_get d key with Some _ => true | None => false end).

(** [dict.update(self, m)] for the entries [m] of a dictionary *)
Definition dict_update (l : loc) (m : dict) : M heap unit :=
  fun h =>
    match h !! l with
    | Some o => (Ok tt, <[l := obj_with_dict o (entries_update (obj_dict o) m)]> h)
    | None => (Outside, h)
    end.

(** [dict.__delitem__(self, key)] *)
Definition dict_delitem (l : loc) (key : string) : M heap unit :=
  fun h =>
    match h !! l with
    | Some o =>
        match entries_get (obj_dict o) key with
        | Some _ => (Ok tt, <[l := obj_with_dict o (entries_del (obj_dict o) key)]> h)
        | None => (Raise (KeyError key), h)
        end
    | None => (Outside, h)
    end.

(** [isinstance(v, Config)] *)
Definition is_config (h : heap) (v : value) : bool :=
  match v with
  | VRef l => match h !! l with Some (OConfig _) => true | _ => false end
  | _ => false
  end.

(** [callable(v)] *)
Definition callable (v : value) : bool :=
  match v with
  | VBuiltin _ | VMethod _ => true
  | _ => false
  end.

(** [self.name(...)], for a method [name] of the class, up to the call.
    A [Config] is its own instance dictionary ([__dict__ = self]) and a
    method is no data descriptor, so an entry stored under [name] is what
    [self.name] finds: calling it is a [TypeError] when it is not callable,
    and is not followed when it is.  A plain [dict] has no instance
    dictionary; [of_dict] tells whether [dict] has the method. *)
Definition method (self : loc) (name : string) (of_dict : bool) : M heap unit :=
  fun h =>
    match h !! self with
    | Some (OConfig d) =>
        match entries_get d name with
        | None => (Ok tt, h)
        | Some v => if callable v then (Outside, h) else (Raise TypeError, h)
        end
    | Some (ODict _) => if of_dict then (Ok tt, h) else (Raise AttributeError, h)
    | None => (Outside, h)
    end.

(** [other.items()], as the list the loop over it runs through *)
Definition dict_items (other : loc) : M heap dict :=
  method other "items" true ;;; dict_of other.

(** ** Characters

    [str.upper] and the classes of the regular expressions, on ASCII. *)

Definition is_ascii (c : ascii) : bool := (nat_of_ascii c <? 128)%nat.

Definition is_lower (c : ascii) : bool :=
  let n := nat_of_ascii c in (97 <=? n)%nat && (n <=? 122)%nat.

Definition is_upper (c : ascii) : bool :=
  let n := nat_of_ascii c in (65 <=? n)%nat && (n <=? 90)%nat.

Definition is_digit (c : ascii) : bool :=
  let n := nat_of_ascii c in (48 <=? n)%nat && (n <=? 57)%nat.

Definition is_letter (c : ascii) : bool := is_lower c || is_upper c.

(** [c.upper()] for an ASCII character *)
Definition upper (c : ascii) : ascii :=
  if is_lower c then ascii_of_nat (nat_of_ascii c - 32) else c.

(** ** class Config(dict) *)

Module Config.

(** [Config()] *)
Definition new : M heap loc := alloc (OConfig ∅).

(** The global name [__builtin__].  [loader.py] imports the module under
    the name [builtins] (line 21) and binds [__builtin__] nowhere, and the
    builtins module has no attribute of that name: evaluating the name
    raises [NameError].  A module is seen as the table of its attributes. *)
Definition __builtin__ : M heap (string -> option value) := raise NameError.

(** [key[0].upper()==key[0] and not key.startswith('_')]; indexing the empty
    key raises.  The upper case of a character outside ASCII is left to the
    host. *)
Definition _is_section_key (key : string) : outcome bool :=
  match key with
  | EmptyString => Raise IndexError
  | String c _ =>
      if is_ascii c then Ok (Ascii.eqb (upper c) c && negb (Ascii.eqb c "_"))
      else Outside
  end.

Definition __contains__ (self : loc) (key : string) : M heap bool :=
  method self "_is_section_key" false ;;;
  b <- lift_outcome (_is_section_key key) ;;
  if b then ret true
  else dict_contains self key.

Definition _has_section (self : loc) (key : string) : M heap bool :=
  method self "_is_section_key" false ;;;
  b <- lift_outcome (_is_section_key key) ;;
  if b then
    stored <- dict_contains self key ;;
    if stored then ret true else ret false
  else ret false.

(** [__getitem__]: [is_section_key] is fished from the class;
    [getattr(__builtin__, key)] comes first, and only its [AttributeError]
    is passed over. *)
Definition __getitem__ (self : loc) (key : string) : M heap value :=
  m <- __builtin__ ;;
  match m key with
  | Some x => ret x
  | None =>
      b <- lift_outcome (_is_section_key key) ;;
      if b then
        catch (dict_getitem self key)
              (fun e => match e with KeyError _ => true | _ => false end)
              (c <- new ;;
               dict_setitem self key (VRef c) ;;;
               ret (VRef c))
      else dict_getitem self key
  end.

(** [__setitem__]: [hasattr(__builtin__, key)] comes first.  A [Config]
    assigned under a section key passes the check and is not stored: the
    store is the [else] of the section test. *)
Definition __setitem__ (self : loc) (key : string) (v : value) : M heap unit :=
  m <- __builtin__ ;;
  match m key with
  | Some _ => raise ConfigError
  | None =>
      method self "_is_section_key" false ;;;
      b <- lift_outcome (_is_section_key key) ;;
      if b then
        fun h => if is_config h v then (Ok tt, h) else (Raise ValueError, h)
      else dict_setitem self key v
  end.

Definition __getattr__ (self : loc) (key : string) : M heap value :=
  key_to_attribute_error (method self "__getitem__" true ;;; __getitem__ self key).

Definition __setattr__ (self : loc) (key : string) (v : value) : M heap unit :=
  key_to_attribute_error (method self "__setitem__" true ;;; __setitem__ self key v).

Definition __delattr__ (self : loc) (key : string) : M heap unit :=
  key_to_attribute_error (dict_delitem self key).

(** [copy]: [type(self)(dict.copy(self))].  [dict.copy] makes a plain
    dictionary with the same entries, the constructor fills a new [Config]
    from it. *)
Definition copy (self : loc) : M heap loc :=
  d <- dict_of self ;;
  _ <- alloc (ODict d) ;;
  alloc (OConfig d).

Definition __copy__ (self : loc) : M heap loc :=
  method self "copy" true ;;; copy self.

(** [sub._merge(v)] for what [self[k]] returned: only a [Config] has the
    method. *)
Definition call_merge (rec : loc -> loc -> M heap unit) (sub v : value)
    : M heap unit :=
  match sub, v with
  | VRef s, VRef o =>
      fun h =>
        if is_config h sub then (method s "_merge" false ;;; rec s o) h
        else (Raise AttributeError, h)
  | _, _ => raise AttributeError
  end.

(** The body of the loop of [_merge]; [rec] is the method behind the
    recursive call [self[k]._merge(v)]. *)
Fixpoint merge_items (rec : loc -> loc -> M heap unit) (self : loc)
    (items : dict) (to_update : dict) : M heap dict :=
  match items with
  | [] => ret to_update
  | (k, v) :: rest =>
      present <- __contains__ self k ;;
      if negb present then merge_items rec self rest (entries_set to_update k v)
      else
        fun h =>
          if is_config h v then
            (sub <- __getitem__ self k ;;
             call_merge rec sub v ;;;
             merge_items rec self rest to_update) h
          else merge_items rec self rest (entries_set to_update k v) h
  end.

(** [_merge]; [fuel] is how many nested calls the interpreter still
    allows. *)
Fixpoint _merge (fuel : nat) (self other : loc) : M heap unit :=
  match fuel with
  | O => raise RecursionError
  | S n =>
      items <- dict_items other ;;
      to_update <- merge_items (_merge n) self items [] ;;
      method self "update" true ;;;
      dict_update self to_update
  end.

Section WithHost.
Context `{Host}.

(** Attribute syntax [self.key], for a name that the class does not bind.
    The instance dictionary of a [Config] is the [Config] itself, so a
    stored key is found there; [__getattr__] is asked when it is not.  What
    the class binds (a method, a data descriptor such as [__class__]) and
    the attributes of other objects are left to the host. *)
Definition getattr (target : value) (key : string) : M heap value :=
  fun h =>
    match target with
    | VRef self =>
        match h !! self with
        | Some (OConfig d) =>
            if class_attr key then (Outside, h)
            else
              match entries_get d key with
              | Some v => (Ok v, h)
              | None => __getattr__ self key h
              end
        | _ => (Outside, h)
        end
    | _ => (Outside, h)
    end.

End WithHost.

(** Attribute syntax [self.key = v]: always [__setattr__] of the class. *)
Definition setattr (target : value) (key : string) (v : value) : M heap unit :=
  fun h =>
    match target with
    | VRef self =>
        match h !! self with
        | Some (OConfig _) => __setattr__ self key v h
        | _ => (Outside, h)
        end
    | _ => (Outside, h)
    end.

(** Attribute syntax [del self.key]: always [__delattr__] of the class. *)
Definition delattr (target : value) (key : string) : M heap unit :=
  fun h =>
    match target with
    | VRef self =>
        match h !! self with
        | Some (OConfig _) => __delattr__ self key h
        | _ => (Outside, h)
        end
    | _ => (Outside, h)
    end.

(** Index syntax [target[key]] and [target[key] = v]: the methods of the
    class of [target]. *)
Definition getitem (target : value) (key : string) : M heap value :=
  fun h =>
    match target with
    | VRef self =>
        match h !! self with
        | Some (OConfig _) => __getitem__ self key h
        | Some (ODict _) => dict_getitem self key h
        | None => (Outside, h)
        end
    | _ => (Outside, h)
    end.

Definition setitem (target : value) (key : string) (v : value) : M heap unit :=
  fun h =>
    match target with
    | VRef self =>
        match h !! self with
        | Some (OConfig _) => __setitem__ self key v h
        | Some (ODict _) => dict_setitem self key v h
        | None => (Outside, h)
        end
    | _ => (Outside, h)
    end.

(** A dotted path [k1.k2...kn] as the list of its components:
    [c[k1][k2]...[kn]] and [c[k1][k2]...[kn] = v].  There is no assignment
    to an empty path. *)
Fixpoint get (target : value) (p : list string) : M heap value :=
  match p with
  | [] => ret target
  | k :: rest => x <- getitem target k ;; get x rest
  end.

Fixpoint set (target : value) (p : list string) (v : value) : M heap unit :=
  match p with
  | [] => outside
  | [k] => setitem target k v
  | k :: rest => x <- getitem target k ;; set x rest v
  end.

Section WithHostPaths.
Context `{Host}.


Fixpoint setattr_path (target : value) (p : list string) (v : value)
    : M heap unit :=
  match p with
  | [] => outside
  | [k] => setattr target k v
  | k :: rest => x <- getattr target k ;; setattr_path x rest v
  end.

Fixpoint delattr_path (target : value) (p : list string) : M heap unit :=
  match p with
  | [] => outside
  | [k] => delattr target k
  | k :: rest => x <- getattr target k ;; delattr_path x rest
  end.

End WithHostPaths.
End Config.

(** ** class PyFileConfigLoader(FileConfigLoader) *)

Module PyFileConfigLoader.

(** [__init__]: the base class constructor calls [clear], which makes a
    [Config] of its own. *)
Definition __init__ : M heap unit := _ <- Config.new ;; ret tt.

Section WithHost.
Context `{Host}.

(** The closure [load_subconfig] of [_read_file_as_dict]; [load] is the
    [load_config] of the loader built for the child, [merge] the method
    behind [self.config._merge], [self_path] and [self_config] are the
    parent's.  The import of [ProfileDir] is taken to succeed. *)
Definition load_subconfig (load : string -> list string -> M heap loc)
    (merge : loc -> loc -> M heap unit)
    (self_path : list string) (self_config : loc)
    (fname : string) (profile : option string) : M heap unit :=
  let go (path : list string) : M heap unit :=
    __init__ ;;;
    fun h =>
      match load fname path h with
      | (Ok sub_config, h') =>
          (method self_config "_merge" false ;;; merge self_config sub_config) h'
      | (Raise IOError, h') => (Ok tt, h')
      | (Raise e, h') => (Raise e, h')
      | (Outside, h') => (Outside, h')
      end in
  match profile with
  | Some name =>
      match find_profile_dir_by_name name with
      | None => ret tt
      | Some location => go [location]
      end
  | None => go self_path
  end.

(** Running the statements of a script in the namespace
    [dict(load_subconfig=..., get_config=...)]. *)
Fixpoint exec_script (sub : string -> option string -> M heap unit)
    (config : loc) (body : script) : M heap unit :=
  match body with
  | [] => ret tt
  | SAssign p v :: rest =>
      Config.setattr_path (VRef config) p v ;;;
      exec_script sub config rest
  | SLoadSubconfig fname profile :: rest =>
      sub fname profile ;;;
      exec_script sub config rest
  end.

(** [load_config]: [clear], [_find_file], [_read_file_as_dict],
    [_convert_to_config] (which builds an exception and drops it).  [fuel]
    is how many nested loads the interpreter still allows. *)
Fixpoint load_config (fuel : nat) (filename : string) (path : list string)
    : M heap loc :=
  match fuel with
  | O => raise RecursionError
  | S n =>
      config <- Config.new ;;
      match filefind filename path with
      | None => raise IOError
      | Some full_filename =>
          exec_script
            (load_subconfig (load_config n) (Config._merge n) path config)
            config (read_script full_filename) ;;;
          ret config
      end
  end.

End WithHost.
End PyFileConfigLoader.

(** ** The two regular expressions of the command line

    [kv_pattern = [A-Za-z]\w*(\.\w+)*\=.*] and
    [flag_pattern = \-\-\w+(\-\w)*], both used with [match], which anchors
    at the start of the token only.  [\w] holds of the ASCII letters,
    digits and underscore, of no other ASCII character, and of some
    characters outside ASCII. *)

Definition is_word (c : ascii) : bool :=
  is_letter c || is_digit c || Ascii.eqb c "_".

(** What a pattern says of a token; [Depends] when the answer hangs on
    whether a character outside ASCII is in [\w]. *)
Inductive verdict :=
| Matches
| Fails
| Depends.

(** Inside a run of [\w]: more of it, a dot opening the next [\.\w+], or
    the [=] that ends the left-hand side. *)
Fixpoint kv_tail (s : string) : verdict :=
  match s with
  | EmptyString => Fails
  | String c r =>
      if is_word c then kv_tail r
      else if Ascii.eqb c "=" then Matches
      else if Ascii.eqb c "." then
        match r with
        | String c' r' =>
            if is_word c' then kv_tail r'
            else if is_ascii c' then Fails else Depends
        | EmptyString => Fails
        end
      else if is_ascii c then Fails else Depends
  end.

Definition kv_pattern (item : string) : verdict :=
  match item with
  | String c r => if is_letter c then kv_tail r else Fails
  | EmptyString => Fails
  end.

(** [flag_pattern] matches by an ASCII word character after the two
    dashes. *)
Definition flag_match (item : string) : bool :=
  match item with
  | String "-" (String "-" (String c _)) => is_word c
  | _ => false
  end.

(** What follows the two dashes is outside ASCII. *)
Definition flag_depends (item : string) : bool :=
  match item with
  | String "-" (String "-" (String c _)) => negb (is_ascii c)
  | _ => false
  end.

(** [item.startswith('-')] *)
Definition starts_with_dash (item : string) : bool :=
  match item with
  | String "-" _ => true
  | _ => false
  end.

(** [item.split('=', 1)] on an item that holds an [=] *)
Fixpoint split_eq (item : string) : string * string :=
  match item with
  | EmptyString => (EmptyString, EmptyString)
  | String c r =>
      if Ascii.eqb c "=" then (EmptyString, r)
      else let '(l, rhs) := split_eq r in (String c l, rhs)
  end.

(** [lhs.split('.')] *)
Fixpoint split_dots (s : string) : list string :=
  match s with
  | EmptyString => [EmptyString]
  | String c r =>
      if Ascii.eqb c "." then EmptyString :: split_dots r
      else match split_dots r with
           | w :: ws => String c w :: ws
           | [] => [String c EmptyString]
           end
  end.

Fixpoint all_word (s : string) : bool :=
  match s with
  | EmptyString => true
  | String c r => is_word c && all_word r
  end.

(** Nothing but ASCII word characters and dots. *)
Fixpoint dotted_words (s : string) : bool :=
  match s with
  | EmptyString => true
  | String c r => (is_word c || Ascii.eqb c ".") && dotted_words r
  end.

(** ** class KeyValueConfigLoader(CommandLineConfigLoader) *)

Module KeyValueConfigLoader.

(** The fields of the loader that [load_config] writes, next to the heap
    they point into. *)
Record state := {
  objects : heap;
  config : loc;
  extra_args : list string
}.

Definition on_heap {A} (m : M heap A) : M state A :=
  fun s =>
    let '(r, h) := m (objects s) in
    (r, {| objects := h; config := config s; extra_args := extra_args s |}).

Definition get_config : M state loc := fun s => (Ok (config s), s).

(** [clear]: a fresh [Config] and an empty list. *)
Definition clear : M state unit :=
  fun s =>
    match Config.new (objects s) with
    | (Ok c, h) => (Ok tt, {| objects := h; config := c; extra_args := [] |})
    | (Raise e, h) => (Raise e, s)
    | (Outside, h) => (Outside, s)
    end.

(** What ['self.config.' + lhs] is in source text: an attribute path, text
    that does not compile, or something else. *)
Inductive target :=
| Path (p : list string)
| NoTarget
| OtherTarget.

Section WithHost.
Context `{Host}.

(** An attribute name as it may appear after a dot in source text. *)
Definition identifier (s : string) : bool :=
  match s with
  | EmptyString => false
  | String c _ => negb (is_digit c) && all_word s && negb (keyword s)
  end.

(** Dotted identifiers are an attribute path.  Other text made of word
    characters and dots (an empty component, one that starts with a digit,
    a keyword) does not compile after [self.config.]; any other text is not
    looked into. *)
Definition attribute_path (lhs : string) : target :=
  if forallb identifier (split_dots lhs) then Path (split_dots lhs)
  else if dotted_words lhs then NoTarget
  else OtherTarget.

(** The host's [eval_expr] on the fields of the loader. *)
Definition run_rhs (env : exec_env) : M state value :=
  fun s =>
    let '(r, (h, c, extra)) :=
      eval_expr env (objects s, config s, extra_args s) in
    (r, {| objects := h; config := c; extra_args := extra |}).

(** [exec('self.config.' + lhs + '=' + <expr>, locals(), globals())]: the
    text is compiled first, the expression is run next, the target
    [self.config.p1...pn] is walked last. *)
Definition exec_assign (lhs : string) (rhs : M state value) : M state unit :=
  match attribute_path lhs with
  | Path p =>
      v <- rhs ;;
      c <- get_config ;;
      on_heap (Config.setattr_path (VRef c) p v)
  | NoTarget => raise SyntaxError
  | OtherTarget => outside
  end.

(** [self.config[sec].update(c)] *)
Definition update_section (sec : string) (c : value) : M state unit :=
  cfg <- get_config ;;
  section <- on_heap (Config.__getitem__ cfg sec) ;;
  match section with
  | VRef l =>
      on_heap
        (method l "update" true ;;;
         match c with
         | VRef m =>
             fun h =>
               match h !! m with
               | Some o => dict_update l (obj_dict o) h
               | None => (Outside, h)
               end
         | VStr EmptyString => ret tt
         | VStr _ => raise ValueError
         | VNone | VBool _ | VInt _ => raise TypeError
         | _ => outside
         end)
  | _ => outside
  end.

Fixpoint update_sections (items : dict) : M state unit :=
  match items with
  | [] => ret tt
  | (sec, c) :: rest => update_section sec c ;;; update_sections rest
  end.

(** One turn of the loop over [argv]. *)
Definition load_item (aliases : gmap string string)
    (flags : gmap string (value * string)) (item : string) : M state unit :=
  match kv_pattern item with
  | Depends => outside
  | Matches =>
      let '(lhs0, rhs) := split_eq item in
      let lhs := match aliases !! lhs0 with Some long => long | None => lhs0 end in
      let env := {| env_aliases := aliases; env_flags := flags;
                    env_item := item; env_lhs := lhs; env_rhs := rhs |} in
      catch (exec_assign lhs (run_rhs env))
            (fun e => match e with NameError | SyntaxError => true | _ => false end)
            (* the same statement with [repr(rhs)], a string literal *)
            (exec_assign lhs (ret (VStr rhs)))
  | Fails =>
      if flag_match item then
        let m := substring 2 (String.length item - 2) item in
        let cfg := match flags !! m with Some (cfg, _) => cfg | None => VNone end in
        match cfg with
        | VNone => raise (ArgumentError (UnrecognizedFlag item))
        | VRef l =>
            (* [isinstance(cfg, (dict, Config))] *)
            fun s =>
              match objects s !! l with
              | Some o => (items <- on_heap (dict_items l) ;; update_sections items) s
              | None => (Raise NameError, s)
              end
        | _ =>
            (* [raise ValueError("Invalid flag: %r"%flag)] names a variable
               that does not exist *)
            raise NameError
        end
      else if flag_depends item then outside
      else if starts_with_dash item then
        raise (ArgumentError (InvalidArgument item))
      else
        fun s =>
          (Ok tt, {| objects := objects s; config := config s;
                     extra_args := extra_args s ++ [item] |})
  end.

Fixpoint load_items (aliases : gmap string string)
    (flags : gmap string (value * string)) (argv : list string)
    : M state unit :=
  match argv with
  | [] => ret tt
  | item :: rest =>
      load_item aliases flags item ;;; load_items aliases flags rest
  end.

(** [load_config(argv, aliases, flags)], called with the three arguments
    given.  The import of [Configurable], a name the body does not use, is
    taken to succeed; [_decode_argv] leaves text as it is. *)
Definition load_config (argv : list string) (aliases : gmap string string)
    (flags : gmap string (value * string)) : M state loc :=
  clear ;;;
  load_items aliases flags argv ;;;
  get_config.

End WithHost.
End KeyValueConfigLoader.

(** ** A host to run the examples on

    A stock interpreter cut down to what the examples use: the attributes
    of [Config] and [dict], the keywords, an evaluator that knows plainly
    quoted strings, decimal integers and the three constants and leaves
    every other text alone, and a file system given as a table from full
    names to scripts. *)

Module Stock.

Definition class_attrs : list string :=
  ["_merge"; "_is_section_key"; "has_key"; "_has_section"; "copy"; "clear";
   "fromkeys"; "get"; "items"; "keys"; "pop"; "popitem"; "setdefault";
   "update"; "values";
   "__class__"; "__contains__"; "__copy__"; "__deepcopy__"; "__delattr__";
   "__delitem__"; "__dict__"; "__doc__"; "__eq__"; "__format__"; "__ge__";
   "__getattr__"; "__getattribute__"; "__getitem__"; "__gt__"; "__hash__";
   "__init__"; "__iter__"; "__le__"; "__len__"; "__lt__"; "__module__";
   "__ne__"; "__new__"; "__reduce__"; "__reduce_ex__"; "__repr__";
   "__setattr__"; "__setitem__"; "__sizeof__"; "__str__";
   "__subclasshook__"; "__weakref__"].

Definition keywords : list string :=
  ["False"; "None"; "True"; "and"; "as"; "assert"; "break"; "class";
   "continue"; "def"; "del"; "elif"; "else"; "except"; "finally"; "for";
   "from"; "global"; "if"; "import"; "in"; "is"; "lambda"; "nonlocal";
   "not"; "or"; "pass"; "raise"; "return"; "try"; "while"; "with"; "yield";
   "__debug__"].

Definition mem (s : string) (l : list string) : bool :=
  existsb (String.eqb s) l.

Definition double_quote : ascii := ascii_of_nat 34.
Definition backslash : ascii := ascii_of_nat 92.

Definition is_printable (c : ascii) : bool :=
  let n := nat_of_ascii c in (32 <=? n)%nat && (n <? 127)%nat.

Fixpoint all_digits (s : string) : bool :=
  match s with
  | EmptyString => true
  | String c r => is_digit c && all_digits r
  end.

Fixpoint digits_value (acc : Z) (s : string) : Z :=
  match s with
  | EmptyString => acc
  | String c r => digits_value (10 * acc + Z.of_nat (nat_of_ascii c - 48)) r
  end.

(** The text between a pair of quotes [q], when it is printable ASCII with
    no quote and no backslash in it. *)
Fixpoint quoted_body (q : ascii) (s : string) : option string :=
  match s with
  | EmptyString => None
  | String c EmptyString => if Ascii.eqb c q then Some EmptyString else None
  | String c r =>
      if Ascii.eqb c q || Ascii.eqb c backslash || negb (is_printable c) then None
      else match quoted_body q r with
           | Some body => Some (String c body)
           | None => None
           end
  end.

Definition eval_literal (text : string) : outcome value :=
  match text with
  | EmptyString => Outside
  | String c r =>
      if Ascii.eqb c "'" || Ascii.eqb c double_quote then
        match quoted_body c r with
        | Some body => Ok (VStr body)
        | None => Outside
        end
      else if is_digit c then
        if all_digits r && (negb (Ascii.eqb c "0") || String.eqb r EmptyString)
        then Ok (VInt (digits_value 0 text))
        else Outside
      else if String.eqb text "None" then Ok VNone
      else if String.eqb text "True" then Ok (VBool true)
      else if String.eqb text "False" then Ok (VBool false)
      else Outside
  end.

Definition find_in (fs : list (string * script)) (filename : string)
    (path : list string) : option string :=
  List.find (fun full => existsb (fun f => String.eqb (fst f) full) fs)
            (List.map (fun dir => String.append dir (String.append "/" filename)) path).

Definition lookup_script (fs : list (string * script)) (full : string) : script :=
  match List.find (fun f => String.eqb (fst f) full) fs with
  | Some (_, body) => body
  | None => []
  end.

Definition lookup_profile (profiles : list (string * string)) (name : string)
    : option string :=
  match List.find (fun p => String.eqb (fst p) name) profiles with
  | Some (_, location) => Some location
  | None => None
  end.

Definition host (fs : list (string * script))
    (profiles : list (string * string)) : Host :=
  {| class_attr := fun k => mem k class_attrs;
     keyword := fun k => mem k keywords;
     eval_expr := fun env s => (eval_literal (env_rhs env), s);
     filefind := find_in fs;
     find_profile_dir_by_name := lookup_profile profiles;
     read_script := lookup_script fs |}.

(** The two files of the parent and child example. *)
Definition parent_and_child : list (string * script) :=
  [("/etc/base.py",
    [SAssign ["A"; "x"] (VInt 1); SLoadSubconfig "child.py" None]);
   ("/etc/child.py",
    [SAssign ["A"; "x"] (VInt 2); SAssign ["A"; "y"] (VInt 3)])].

End Stock.

(** ** The heaps of the two merges given as examples

    [{"A": {"y": 2}}] with [{"A": {"x": 1}}] merged into it, and
    [{"A": {"x": 1}}] with [{"A": {"x": 9}}] merged into it: the receiver
    at 0 with its section at 1, the other at 2 with its section at 3. *)

Definition union_example : heap :=
  [OConfig [("A", VRef 1)]; OConfig [("y", VInt 2)];
   OConfig [("A", VRef 3)]; OConfig [("x", VInt 1)]].

Definition overwrite_example : heap :=
  [OConfig [("A", VRef 1)]; OConfig [("x", VInt 1)];
   OConfig [("A", VRef 3)]; OConfig [("x", VInt 9)]].

(** * Properties *)

(** ** The monad *)

Lemma bind_assoc {S A B C} (m : M S A) (k : A -> M S B) (k' : B -> M S C) s :
  bind (bind m k) k' s = bind m (fun a => bind (k a) k') s.
Proof. unfold bind. destruct (m s) as [[a| |] s']; reflexivity. Qed.

Lemma bind_ok {S A B} (m : M S A) (k : A -> M S B) s a s' :
  m s = (Ok a, s') -> bind m k s = k a s'.
Proof. intros Hm. unfold bind. rewrite Hm. reflexivity. Qed.

Lemma bind_raise {S A B} (m : M S A) (k : A -> M S B) s e s' :
  m s = (Raise e, s') -> bind m k s = (Raise e, s').
Proof. intros Hm. unfold bind. rewrite Hm. reflexivity. Qed.

Lemma bind_ext {S A B} (m : M S A) (k k' : A -> M S B) s :
  (forall a s', k a s' = k' a s') -> bind m k s = bind m k' s.
Proof. intros Hk. unfold bind. destruct (m s) as [[a| |] s']; auto. Qed.

(** ** Reading and writing a key: the name [__builtin__] *)

(** Every index read raises [NameError] before it looks at the key or at
    the dictionary. *)
Lemma getitem_name_error self key h :
  Config.__getitem__ self key h = (Raise NameError, h).
Proof. reflexivity. Qed.

(** So does every index assignment. *)
Lemma setitem_name_error self key v h :
  Config.__setitem__ self key v h = (Raise NameError, h).
Proof. reflexivity. Qed.

Lemma method_free self name of_dict h d :
  h !! self = Some (OConfig d) ->
  entries_get d name = None ->
  method self name of_dict h = (Ok tt, h).
Proof. intros Hself Hname. unfold method. rewrite Hself, Hname. reflexivity. Qed.

(** [self.key = v] on a [Config] that stores nothing under [__setitem__]. *)
Lemma setattr_name_error self key v h d :
  h !! self = Some (OConfig d) ->
  entries_get d "__setitem__" = None ->
  Config.setattr (VRef self) key v h = (Raise NameError, h).
Proof.
  intros Hself Hfree. unfold Config.setattr. rewrite Hself.
  unfold Config.__setattr__, key_to_attribute_error.
  rewrite (bind_ok _ _ _ _ _ (method_free _ _ _ _ _ Hself Hfree)).
  reflexivity.
Qed.

(** C8, on the code.  Reading a key of a [Config] never creates, stores or
    returns a section: for every object, every key and every heap,
    [__getitem__] raises [NameError] and leaves the heap as it was, on the
    first read and on every later one.  So does [get("A")] on an empty
    [Config]. *)
Theorem getitem_raises_name_error :
  (forall (self : loc) (key : string) (h : heap),
     Config.__getitem__ self key h = (Raise NameError, h))
  /\ Config.get (VRef 0) ["A"] [OConfig ∅] = (Raise NameError, [OConfig ∅])
  /\ (x <- Config.get (VRef 0) ["A"] ;; Config.get (VRef 0) ["A"]) [OConfig ∅]
     = (Raise NameError, [OConfig ∅]).
Proof. split; [|split]; reflexivity. Qed.

(** C3, on the code.  For every [Config], every dotted path with at least
    one component and every value, [set(p, v)] raises [NameError] and
    stores nothing, and so does [get(p)]: the round trip never starts. *)
Theorem set_raises_name_error (h : heap) (self : loc) (d : dict)
    (p : list string) (v : value) :
  h !! self = Some (OConfig d) ->
  p <> [] ->
  Config.set (VRef self) p v h = (Raise NameError, h)
  /\ Config.get (VRef self) p h = (Raise NameError, h).
Proof.
  intros Hself Hp. destruct p as [|k rest]; [congruence|].
  assert (Hread : Config.getitem (VRef self) k h = (Raise NameError, h)).
  { unfold Config.getitem. rewrite Hself. reflexivity. }
  split.
  - destruct rest as [|k' rest].
    + simpl. unfold Config.setitem. rewrite Hself. reflexivity.
    + change (Config.set (VRef self) (k :: k' :: rest) v h)
        with ((x <- Config.getitem (VRef self) k ;;
               Config.set x (k' :: rest) v) h).
      apply bind_raise, Hread.
  - simpl. apply bind_raise, Hread.
Qed.

(** [set("foo", 1)] and [get("foo")] on an empty [Config]. *)
Lemma set_raises_name_error_witness :
  Config.set (VRef 0) ["foo"] (VInt 1) [OConfig ∅] = (Raise NameError, [OConfig ∅])
  /\ Config.get (VRef 0) ["foo"] [OConfig ∅] = (Raise NameError, [OConfig ∅]).
Proof.
  apply (set_raises_name_error [OConfig ∅] 0 ∅ ["foo"] (VInt 1)).
  - reflexivity.
  - discriminate.
Defined.

(** ** Section keys *)

Lemma upper_fixes_non_letters c : is_letter c = false -> upper c = c.
Proof.
  unfold is_letter, upper; intros Hc.
  apply orb_false_iff in Hc as [-> _]; reflexivity.
Qed.

Lemma section_key_spec c rest :
  is_ascii c = true ->
  Config._is_section_key (String c rest)
  = Ok (Ascii.eqb (upper c) c && negb (Ascii.eqb c "_")).
Proof. intros Hc. simpl. rewrite Hc. reflexivity. Qed.

Lemma contains_section_key self key h d :
  h !! self = Some (OConfig d) ->
  entries_get d "_is_section_key" = None ->
  Config._is_section_key key = Ok true ->
  Config.__contains__ self key h = (Ok true, h).
Proof.
  intros Hself Hfree Hk. unfold Config.__contains__.
  rewrite (bind_ok _ _ _ _ _ (method_free _ _ _ _ _ Hself Hfree)).
  unfold bind, lift_outcome. rewrite Hk. reflexivity.
Qed.

Lemma contains_plain_key self key h d :
  h !! self = Some (OConfig d) ->
  entries_get d "_is_section_key" = None ->
  Config._is_section_key key = Ok false ->
  Config.__contains__ self key h
  = (Ok (match entries_get d key with Some _ => true | None => false end), h).
Proof.
  intros Hself Hfree Hk. unfold Config.__contains__.
  rewrite (bind_ok _ _ _ _ _ (method_free _ _ _ _ _ Hself Hfree)).
  unfold bind, lift_outcome. rewrite Hk.
  unfold dict_contains, bind, dict_of. rewrite Hself. reflexivity.
Qed.

(** C9, on the code.  A key whose first character is ASCII is a section
    key exactly when upper-casing leaves that character as it is and it is
    not the underscore.  So for every key whose first character is an ASCII
    character that is neither a letter nor the underscore (a digit,
    punctuation): the key is a section key, and [key in c] is true for every
    [Config] whether or not it stores the key (a [Config] that stores an
    entry named [_is_section_key] apart).  Reading the key does not vivify a
    section: [__getitem__] raises [NameError] and the heap stays as it
    was. *)
Theorem non_letter_key_read_raises_name_error (c : ascii) (rest : string) :
  is_ascii c = true ->
  (Config._is_section_key (String c rest) = Ok true
   <-> upper c = c /\ c <> "_"%char)
  /\ (is_letter c = false ->
      c <> "_"%char ->
      Config._is_section_key (String c rest) = Ok true
      /\ (forall (h : heap) (self : loc) (d : dict),
            h !! self = Some (OConfig d) ->
            entries_get d "_is_section_key" = None ->
            Config.__contains__ self (String c rest) h = (Ok true, h))
      /\ (forall (h : heap) (self : loc),
            Config.__getitem__ self (String c rest) h = (Raise NameError, h))).
Proof.
  intros Hascii.
  assert (Hiff : Config._is_section_key (String c rest) = Ok true
                 <-> upper c = c /\ c <> "_"%char).
  { rewrite section_key_spec by assumption. split.
    - intros [= Hb]. apply andb_true_iff in Hb as [Hup Hun]. split.
      + apply Ascii.eqb_eq. exact Hup.
      + intros ->. discriminate Hun.
    - intros [Hup Hun]. rewrite Hup, Ascii.eqb_refl.
      destruct (Ascii.eqb_spec c "_"); [contradiction|reflexivity]. }
  split; [exact Hiff|].
  intros Hletter Hunder.
  assert (Hkey : Config._is_section_key (String c rest) = Ok true).
  { apply Hiff. split; [apply upper_fixes_non_letters; assumption|assumption]. }
  split; [exact Hkey|]. split.
  - intros h self d Hself Hfree. eapply contains_section_key; eassumption.
  - intros h self. apply getitem_name_error.
Qed.

(** The key ["1foo"] on an empty [Config]. *)
Lemma non_letter_key_read_raises_name_error_witness :
  Config._is_section_key "1foo" = Ok true
  /\ Config.__contains__ 0 "1foo" [OConfig ∅] = (Ok true, [OConfig ∅])
  /\ Config.__getitem__ 0 "1foo" [OConfig ∅] = (Raise NameError, [OConfig ∅]).
Proof.
  destruct (non_letter_key_read_raises_name_error "1"%char "foo" eq_refl)
    as (_ & Hrest).
  destruct Hrest as (Hkey & Hin & Hread).
  - reflexivity.
  - discriminate.
  - split; [exact Hkey|]. split.
    + apply (Hin [OConfig ∅] 0 ∅); reflexivity.
    + apply Hread.
Defined.

(** ** Merging *)

Lemma merge_unfold fuel self other h :
  Config._merge (S fuel) self other h
  = (items <- dict_items other ;;
     to_update <- Config.merge_items (Config._merge fuel) self items [] ;;
     method self "update" true ;;;
     dict_update self to_update) h.
Proof. reflexivity. Qed.

(** C2, on the code.  The two merges given as examples do not take place:
    merging [{"A": {"x": 1}}] into [{"A": {"y": 2}}], and merging
    [{"A": {"x": 9}}] into [{"A": {"x": 1}}], raise [NameError] at
    [self["A"]] whatever depth of recursion is allowed, and leave both
    configs as they were. *)
Theorem merge_common_section_raises_name_error (fuel : nat) :
  Config._merge (S fuel) 0 2 union_example = (Raise NameError, union_example)
  /\ Config._merge (S fuel) 0 2 overwrite_example
     = (Raise NameError, overwrite_example).
Proof. split; reflexivity. Qed.

(** The same for every receiver and every other config whose first key is
    one the receiver counts as present and holds a [Config]. *)
Lemma merge_first_section_raises fuel h self other d k o rest :
  h !! self = Some (OConfig d) ->
  h !! other = Some (OConfig ((k, VRef o) :: rest)) ->
  entries_get ((k, VRef o) :: rest) "items" = None ->
  Config.__contains__ self k h = (Ok true, h) ->
  is_config h (VRef o) = true ->
  Config._merge (S fuel) self other h = (Raise NameError, h).
Proof.
  intros Hself Hother Hitems Hin Hsec. rewrite merge_unfold.
  assert (Hit : dict_items other h = (Ok ((k, VRef o) :: rest), h)).
  { unfold dict_items.
    rewrite (bind_ok _ _ _ _ _ (method_free _ _ _ _ _ Hother Hitems)).
    unfold dict_of. rewrite Hother. reflexivity. }
  rewrite (bind_ok _ _ _ _ _ Hit).
  erewrite bind_raise; [reflexivity|].
  cbn [Config.merge_items]. rewrite (bind_ok _ _ _ _ _ Hin). cbn [negb].
  rewrite Hsec. reflexivity.
Qed.

Lemma contains_of_leaf self k h d b :
  h !! self = Some (OConfig d) ->
  entries_get d "_is_section_key" = None ->
  Config._is_section_key k = Ok b ->
  exists present, Config.__contains__ self k h = (Ok present, h).
Proof.
  intros Hself Hfree Hk. destruct b.
  - exists true. eapply contains_section_key; eassumption.
  - eexists. eapply contains_plain_key; eassumption.
Qed.

(** The loop of [_merge] over items none of which is a [Config]: each one
    goes to [to_update], in the order of the items; the heap stays. *)
Lemma merge_items_leaves rec self d h items : forall to_update,
  h !! self = Some (OConfig d) ->
  entries_get d "_is_section_key" = None ->
  Forall (fun kv => (exists b, Config._is_section_key (fst kv) = Ok b)
                    /\ is_config h (snd kv) = false) items ->
  Config.merge_items rec self items to_update h
  = (Ok (entries_update to_update items), h).
Proof.
  induction items as [|[k v] rest IH]; intros to_update Hself Hfree Hitems.
  - reflexivity.
  - apply Forall_cons in Hitems as [[[b Hk] Hv] Hrest]. simpl in Hk, Hv.
    destruct (contains_of_leaf self k h d b Hself Hfree Hk) as (present & Hin).
    cbn [Config.merge_items]. rewrite (bind_ok _ _ _ _ _ Hin).
    destruct present; cbn [negb]; [rewrite Hv|]; apply IH; assumption.
Qed.

(** Merging a dictionary that holds no [Config] is one [dict.update] with
    what the loop gathered. *)
Lemma merge_leaves fuel h self other d oo :
  h !! self = Some (OConfig d) ->
  entries_get d "_is_section_key" = None ->
  entries_get d "update" = None ->
  h !! other = Some oo ->
  entries_get (obj_dict oo) "items" = None ->
  Forall (fun kv => (exists b, Config._is_section_key (fst kv) = Ok b)
                    /\ is_config h (snd kv) = false) (obj_dict oo) ->
  Config._merge (S fuel) self other h
  = (Ok tt, <[self := OConfig (entries_update d (entries_update [] (obj_dict oo)))]> h).
Proof.
  intros Hself Hfree Hupdate Hother Hitems Hleaves. rewrite merge_unfold.
  assert (Hit : dict_items other h = (Ok (obj_dict oo), h)).
  { unfold dict_items, bind, method. rewrite Hother.
    destruct oo as [d'|d']; [simpl in Hitems; rewrite Hitems|];
      unfold dict_of; rewrite Hother; reflexivity. }
  rewrite (bind_ok _ _ _ _ _ Hit).
  rewrite (bind_ok _ _ _ _ _
             (merge_items_leaves _ self d h _ [] Hself Hfree Hleaves)).
  rewrite (bind_ok _ _ _ _ _ (method_free _ _ _ _ _ Hself Hupdate)).
  unfold dict_update. rewrite Hself. reflexivity.
Qed.

(** ** A script that loads a child script *)




(** ** The command line: an unknown flag *)

Section KeyValueFacts.
Context `{Host}.

Lemma substring_all s : substring 0 (String.length s) s = s.
Proof. induction s as [|c s IH]; simpl; [reflexivity|]. rewrite IH. reflexivity. Qed.

Lemma load_items_app aliases flags pre post s :
  KeyValueConfigLoader.load_items aliases flags (pre ++ post) s
  = (KeyValueConfigLoader.load_items aliases flags pre ;;;
     KeyValueConfigLoader.load_items aliases flags post) s.
Proof.
  revert s. induction pre as [|item pre IH]; intros s; simpl.
  - reflexivity.
  - rewrite bind_assoc. apply bind_ext. intros _ s'. apply IH.
Qed.

(** What follows the two dashes of a flag token is its name. *)
Lemma flag_name name :
  substring 2 (String.length (String.append "--" name) - 2)
    (String.append "--" name) = name.
Proof. simpl. rewrite Nat.sub_0_r. apply substring_all. Qed.

(** A token [--name] whose name the flags do not know raises before it
    touches anything. *)
Lemma load_item_unknown_flag aliases flags name s :
  flag_match (String.append "--" name) = true ->
  flags !! name = None ->
  KeyValueConfigLoader.load_item aliases flags (String.append "--" name) s
  = (Raise (ArgumentError (UnrecognizedFlag (String.append "--" name))), s).
Proof.
  intros Hflag Hname. unfold KeyValueConfigLoader.load_item.
  change (kv_pattern (String.append "--" name)) with Fails. cbv iota.
  rewrite Hflag, flag_name, Hname. reflexivity.
Qed.

End KeyValueFacts.

(** C6.  For every token [--name] that has the shape of a flag and whose
    name is not in the flags mapping, whatever tokens come before and after
    it: if the tokens before it load without error into a state [s1], then
    loading the whole list raises the unrecognized-flag [ArgumentError] for
    that token, and the loader is left exactly in [s1]: its heap, its config
    and its extra arguments are those the earlier tokens produced. *)
Theorem unknown_flag_raises `{Host} (aliases : gmap string string)
    (flags : gmap string (value * string)) (pre rest : list string)
    (name : string) (s0 s1 : KeyValueConfigLoader.state) (c : loc) :
  flag_match (String.append "--" name) = true ->
  flags !! name = None ->
  KeyValueConfigLoader.load_config pre aliases flags s0 = (Ok c, s1) ->
  KeyValueConfigLoader.load_config
    (pre ++ String.append "--" name :: rest) aliases flags s0
  = (Raise (ArgumentError (UnrecognizedFlag (String.append "--" name))), s1).
Proof.
  intros Hflag Hname Hload.
  unfold KeyValueConfigLoader.load_config, bind in Hload.
  destruct (KeyValueConfigLoader.clear s0) as [[[]| |] sc] eqn:Hclear;
    try discriminate.
  destruct (KeyValueConfigLoader.load_items aliases flags pre sc)
    as [[[]| |] sp] eqn:Hpre; try discriminate.
  unfold KeyValueConfigLoader.get_config in Hload. injection Hload as _ <-.
  unfold KeyValueConfigLoader.load_config.
  rewrite (bind_ok _ _ _ _ _ Hclear).
  erewrite bind_raise; [reflexivity|].
  rewrite load_items_app, (bind_ok _ _ _ _ _ Hpre). simpl.
  erewrite bind_raise; [reflexivity|].
  apply load_item_unknown_flag; assumption.
Qed.

(** The theorem on the stock host: [report.csv], then [--bogus], then
    [x]. *)
Lemma unknown_flag_raises_witness :
  KeyValueConfigLoader.load_config (H := Stock.host [] [])
    ["report.csv"; "--bogus"; "x"] ∅ ∅
    {| KeyValueConfigLoader.objects := [];
       KeyValueConfigLoader.config := 0;
       KeyValueConfigLoader.extra_args := [] |}
  = (Raise (ArgumentError (UnrecognizedFlag "--bogus")),
     {| KeyValueConfigLoader.objects := [OConfig ∅];
        KeyValueConfigLoader.config := 0;
        KeyValueConfigLoader.extra_args := ["report.csv"] |}).
Proof.
  apply (unknown_flag_raises (H := Stock.host [] []) ∅ ∅ ["report.csv"] ["x"]
           "bogus" _ _ 0).
  - reflexivity.
  - reflexivity.
  - vm_compute. reflexivity.
Defined.

(** ** Files that are not there *)

Section FileFacts.
Context `{Host}.

Lemma load_config_unfold fuel filename path h :
  PyFileConfigLoader.load_config (S fuel) filename path h
  = (config <- Config.new ;;
     match filefind filename path with
     | None => raise IOError
     | Some full_filename =>
         PyFileConfigLoader.exec_script
           (PyFileConfigLoader.load_subconfig
              (PyFileConfigLoader.load_config fuel) (Config._merge fuel)
              path config)
           config (read_script full_filename) ;;;
         ret config
     end) h.
Proof. reflexivity. Qed.

Lemma load_config_missing fuel filename path h :
  filefind filename path = None ->
  PyFileConfigLoader.load_config (S fuel) filename path h
  = (Raise IOError, h ++ [OConfig ∅]).
Proof.
  intros Hfind. rewrite load_config_unfold.
  unfold bind, Config.new, alloc. rewrite Hfind. reflexivity.
Qed.

Lemma load_subconfig_missing fuel self_path self_config fname h :
  filefind fname self_path = None ->
  PyFileConfigLoader.load_subconfig
    (PyFileConfigLoader.load_config (S fuel)) (Config._merge (S fuel))
    self_path self_config fname None h
  = (Ok tt, h ++ [OConfig ∅; OConfig ∅]).
Proof.
  intros Hfind. unfold PyFileConfigLoader.load_subconfig.
  unfold bind at 1. unfold PyFileConfigLoader.__init__, bind, Config.new, alloc, ret.
  rewrite load_config_missing by assumption.
  rewrite <- app_assoc. reflexivity.
Qed.

Lemma load_subconfig_missing_in_profile fuel self_path self_config fname name
    location h :
  find_profile_dir_by_name name = Some location ->
  filefind fname [location] = None ->
  PyFileConfigLoader.load_subconfig
    (PyFileConfigLoader.load_config (S fuel)) (Config._merge (S fuel))
    self_path self_config fname (Some name) h
  = (Ok tt, h ++ [OConfig ∅; OConfig ∅]).
Proof.
  intros Hprofile Hfind. unfold PyFileConfigLoader.load_subconfig.
  rewrite Hprofile.
  unfold bind at 1. unfold PyFileConfigLoader.__init__, bind, Config.new, alloc, ret.
  rewrite load_config_missing by assumption.
  rewrite <- app_assoc. reflexivity.
Qed.

Lemma load_subconfig_missing_profile load merge self_path self_config fname name h :
  find_profile_dir_by_name name = None ->
  PyFileConfigLoader.load_subconfig load merge self_path self_config fname
    (Some name) h
  = (Ok tt, h).
Proof.
  intros Hprofile. unfold PyFileConfigLoader.load_subconfig.
  rewrite Hprofile. reflexivity.
Qed.

End FileFacts.

(** C7.  A top-level [load_config] whose file is found nowhere on the search
    path raises [IOError] to its caller.  Inside a script, a
    [load_subconfig] whose file is found nowhere (on the parent's path, or in
    the directory of the profile it names), or whose profile cannot be
    resolved, returns normally: the parent's objects are all as they were
    (the heap only gained the child's unused empty configs), the script goes
    on with its next statement, and a parent script that consists of such a
    call loads without error. *)
Theorem missing_file_raises_at_top_is_skipped_in_subconfig `{Host} :
  (forall (fuel : nat) (filename : string) (path : list string) (h : heap),
     filefind filename path = None ->
     PyFileConfigLoader.load_config (S fuel) filename path h
     = (Raise IOError, h ++ [OConfig ∅]))
  /\ (forall (fuel : nat) (self_path : list string) (self_config : loc)
        (fname : string) (h : heap),
        filefind fname self_path = None ->
        PyFileConfigLoader.load_subconfig
          (PyFileConfigLoader.load_config (S fuel)) (Config._merge (S fuel))
          self_path self_config fname None h
        = (Ok tt, h ++ [OConfig ∅; OConfig ∅]))
  /\ (forall (fuel : nat) (self_path : list string) (self_config : loc)
        (fname name location : string) (h : heap),
        find_profile_dir_by_name name = Some location ->
        filefind fname [location] = None ->
        PyFileConfigLoader.load_subconfig
          (PyFileConfigLoader.load_config (S fuel)) (Config._merge (S fuel))
          self_path self_config fname (Some name) h
        = (Ok tt, h ++ [OConfig ∅; OConfig ∅]))
  /\ (forall (fuel : nat) (self_path : list string) (self_config : loc)
        (fname name : string) (h : heap),
        find_profile_dir_by_name name = None ->
        PyFileConfigLoader.load_subconfig
          (PyFileConfigLoader.load_config fuel) (Config._merge fuel)
          self_path self_config fname (Some name) h
        = (Ok tt, h))
  /\ (forall (sub : string -> option string -> M heap unit) (config : loc)
        (fname : string) (profile : option string) (rest : script)
        (h h1 : heap),
        sub fname profile h = (Ok tt, h1) ->
        PyFileConfigLoader.exec_script sub config
          (SLoadSubconfig fname profile :: rest) h
        = PyFileConfigLoader.exec_script sub config rest h1)
  /\ (forall (fuel : nat) (filename full fname : string) (path : list string)
        (h : heap),
        filefind filename path = Some full ->
        read_script full = [SLoadSubconfig fname None] ->
        filefind fname path = None ->
        PyFileConfigLoader.load_config (S (S fuel)) filename path h
        = (Ok (List.length h), h ++ [OConfig ∅; OConfig ∅; OConfig ∅])).
Proof.
  split; [intros; apply load_config_missing; assumption|].
  split; [intros; apply load_subconfig_missing; assumption|].
  split; [intros; eapply load_subconfig_missing_in_profile; eassumption|].
  split; [intros; apply load_subconfig_missing_profile; assumption|].
  split.
  - intros sub config fname profile rest h h1 Hsub. simpl.
    unfold bind. rewrite Hsub. reflexivity.
  - intros fuel filename full fname path h Hfound Hbody Hmissing.
    rewrite load_config_unfold, Hfound, Hbody.
    assert (Hnew : Config.new h = (Ok (List.length h), h ++ [OConfig ∅]))
      by reflexivity.
    rewrite (bind_ok _ _ _ _ _ Hnew).
    assert (Hbody' :
      PyFileConfigLoader.exec_script
        (PyFileConfigLoader.load_subconfig
           (PyFileConfigLoader.load_config (S fuel)) (Config._merge (S fuel))
           path (List.length h))
        (List.length h) [SLoadSubconfig fname None] (h ++ [OConfig ∅])
      = (Ok tt, (h ++ [OConfig ∅]) ++ [OConfig ∅; OConfig ∅])).
    { simpl. erewrite bind_ok; [reflexivity|].
      apply load_subconfig_missing. assumption. }
    rewrite (bind_ok _ _ _ _ _ Hbody').
    unfold ret. rewrite <- app_assoc. reflexivity.
Qed.

(** ** The command line: assignments and flags *)

Section CommandLineFacts.
Context `{Host}.

Lemma state_eta (s : KeyValueConfigLoader.state) :
  {| KeyValueConfigLoader.objects := KeyValueConfigLoader.objects s;
     KeyValueConfigLoader.config := KeyValueConfigLoader.config s;
     KeyValueConfigLoader.extra_args := KeyValueConfigLoader.extra_args s |} = s.
Proof. destruct s; reflexivity. Qed.

(** [self.config.key = v] raises [NameError] and leaves the loader as it
    was. *)
Lemma assign_key_name_error key v s d :
  KeyValueConfigLoader.objects s !! KeyValueConfigLoader.config s
  = Some (OConfig d) ->
  entries_get d "__setitem__" = None ->
  (c <- KeyValueConfigLoader.get_config ;;
   KeyValueConfigLoader.on_heap (Config.setattr_path (VRef c) [key] v)) s
  = (Raise NameError, s).
Proof.
  intros Hconfig Hfree.
  unfold bind, KeyValueConfigLoader.get_config, KeyValueConfigLoader.on_heap.
  cbn [Config.setattr_path].
  rewrite (setattr_name_error _ key v _ d Hconfig Hfree), state_eta.
  reflexivity.
Qed.

(** A token [key=text] whose key is one identifier and whose right-hand
    side evaluates without touching the loader: the assignment raises
    [NameError], the retry with the quoted text raises it again. *)
Lemma load_item_assign_name_error aliases flags item key rhs v s d :
  kv_pattern item = Matches ->
  split_eq item = (key, rhs) ->
  aliases !! key = None ->
  KeyValueConfigLoader.attribute_path key = KeyValueConfigLoader.Path [key] ->
  KeyValueConfigLoader.run_rhs
    {| env_aliases := aliases; env_flags := flags; env_item := item;
       env_lhs := key; env_rhs := rhs |} s = (Ok v, s) ->
  KeyValueConfigLoader.objects s !! KeyValueConfigLoader.config s
  = Some (OConfig d) ->
  entries_get d "__setitem__" = None ->
  KeyValueConfigLoader.load_item aliases flags item s = (Raise NameError, s).
Proof.
  intros Hkv Hsplit Halias Hpath Hrhs Hconfig Hfree.
  unfold KeyValueConfigLoader.load_item. rewrite Hkv, Hsplit, Halias.
  unfold catch, KeyValueConfigLoader.exec_assign. rewrite Hpath.
  rewrite (bind_ok _ _ _ _ _ Hrhs).
  rewrite (assign_key_name_error key v s d Hconfig Hfree).
  rewrite (bind_ok _ _ _ _ _ (eq_refl : ret (VStr rhs) s = (Ok (VStr rhs), s))).
  apply (assign_key_name_error key (VStr rhs) s d Hconfig Hfree).
Qed.

(** A positional token is appended to the extra arguments. *)
Lemma load_item_extra aliases flags item s :
  kv_pattern item = Fails ->
  flag_match item = false ->
  flag_depends item = false ->
  starts_with_dash item = false ->
  KeyValueConfigLoader.load_item aliases flags item s
  = (Ok tt,
     {| KeyValueConfigLoader.objects := KeyValueConfigLoader.objects s;
        KeyValueConfigLoader.config := KeyValueConfigLoader.config s;
        KeyValueConfigLoader.extra_args :=
          KeyValueConfigLoader.extra_args s ++ [item] |}).
Proof.
  intros Hkv Hflag Hdep Hdash. unfold KeyValueConfigLoader.load_item.
  rewrite Hkv, Hflag, Hdep, Hdash. reflexivity.
Qed.

(** A flag whose payload is a plain dictionary with at least one section:
    [self.config[sec]] raises [NameError] before anything is updated. *)
Lemma load_item_flag_name_error aliases flags name help l sec c rest s :
  flag_match (String.append "--" name) = true ->
  flags !! name = Some (VRef l, help) ->
  KeyValueConfigLoader.objects s !! l = Some (ODict ((sec, c) :: rest)) ->
  KeyValueConfigLoader.load_item aliases flags (String.append "--" name) s
  = (Raise NameError, s).
Proof.
  intros Hflag Hname Hpayload. unfold KeyValueConfigLoader.load_item.
  change (kv_pattern (String.append "--" name)) with Fails. cbv iota.
  rewrite Hflag, flag_name, Hname, Hpayload.
  assert (Hitems :
    KeyValueConfigLoader.on_heap (dict_items l) s = (Ok ((sec, c) :: rest), s)).
  { unfold KeyValueConfigLoader.on_heap, dict_items, bind, method.
    rewrite Hpayload. unfold dict_of. rewrite Hpayload. simpl.
    rewrite state_eta. reflexivity. }
  rewrite (bind_ok _ _ _ _ _ Hitems).
  cbn [KeyValueConfigLoader.update_sections].
  erewrite bind_raise; [reflexivity|].
  unfold KeyValueConfigLoader.update_section.
  unfold bind, KeyValueConfigLoader.get_config, KeyValueConfigLoader.on_heap.
  rewrite getitem_name_error, state_eta. reflexivity.
Qed.

Lemma clear_spec s :
  KeyValueConfigLoader.clear s
  = (Ok tt,
     {| KeyValueConfigLoader.objects := KeyValueConfigLoader.objects s ++ [OConfig ∅];
        KeyValueConfigLoader.config := List.length (KeyValueConfigLoader.objects s);
        KeyValueConfigLoader.extra_args := [] |}).
Proof. reflexivity. Qed.

Lemma lookup_fresh (h : heap) (o : obj) : (h ++ [o]) !! List.length h = Some o.
Proof. rewrite lookup_app_r by lia. rewrite Nat.sub_diag. reflexivity. Qed.

End CommandLineFacts.

(** C4, on the code.  On a host on which [foo] is no keyword and the text
    ['bar'] evaluates to the string [bar] without touching the loader,
    loading [foo='bar'], [A.name='brian'], [B.number=0] with empty alias
    and flag tables returns no config: the first token's assignment raises
    [NameError] from [__setitem__], the retry with the quoted text raises it
    again, and [load_config] ends with that [NameError].  The config made by
    [clear] is still empty, the extra arguments are empty. *)
Theorem kv_tokens_raise_name_error `{Host} (s0 : KeyValueConfigLoader.state) :
  keyword "foo" = false ->
  (forall (env : exec_env) (s : heap * loc * list string),
     env_rhs env = "'bar'" -> eval_expr env s = (Ok (VStr "bar"), s)) ->
  KeyValueConfigLoader.load_config
    ["foo='bar'"; "A.name='brian'"; "B.number=0"] ∅ ∅ s0
  = (Raise NameError,
     {| KeyValueConfigLoader.objects := KeyValueConfigLoader.objects s0 ++ [OConfig ∅];
        KeyValueConfigLoader.config := List.length (KeyValueConfigLoader.objects s0);
        KeyValueConfigLoader.extra_args := [] |}).
Proof.
  intros Hkw Heval. unfold KeyValueConfigLoader.load_config.
  rewrite (bind_ok _ _ _ _ _ (clear_spec s0)).
  erewrite bind_raise; [reflexivity|].
  cbn [KeyValueConfigLoader.load_items].
  erewrite bind_raise; [reflexivity|].
  eapply (load_item_assign_name_error ∅ ∅ "foo='bar'" "foo" "'bar'" (VStr "bar") _ ∅).
  - reflexivity.
  - reflexivity.
  - apply lookup_empty.
  - unfold KeyValueConfigLoader.attribute_path. simpl. rewrite Hkw. reflexivity.
  - unfold KeyValueConfigLoader.run_rhs. rewrite Heval by reflexivity. reflexivity.
  - apply lookup_fresh.
  - reflexivity.
Qed.

(** The three tokens on the stock host, from a loader with an empty heap. *)
Lemma kv_tokens_raise_name_error_witness :
  KeyValueConfigLoader.load_config (H := Stock.host [] [])
    ["foo='bar'"; "A.name='brian'"; "B.number=0"] ∅ ∅
    {| KeyValueConfigLoader.objects := [];
       KeyValueConfigLoader.config := 0;
       KeyValueConfigLoader.extra_args := [] |}
  = (Raise NameError,
     {| KeyValueConfigLoader.objects := [OConfig ∅];
        KeyValueConfigLoader.config := 0;
        KeyValueConfigLoader.extra_args := [] |}).
Proof.
  apply (kv_tokens_raise_name_error (H := Stock.host [] [])
           {| KeyValueConfigLoader.objects := [];
              KeyValueConfigLoader.config := 0;
              KeyValueConfigLoader.extra_args := [] |}).
  - reflexivity.
  - intros env s Hrhs. simpl. rewrite Hrhs. reflexivity.
Defined.

(** C5, on the code.  With the payload [{"Log": {"level": 10}}] of the flag
    [verbose] in the heap as plain dictionaries, loading [report.csv],
    [--verbose] returns no config: [report.csv] goes to the extra
    arguments, then the flag's [self.config["Log"]] raises [NameError] and
    [load_config] ends with it.  The config is still empty: nothing of the
    payload was applied. *)
Theorem kv_flag_raises_name_error `{Host} (s0 : KeyValueConfigLoader.state)
    (payload section : loc) :
  KeyValueConfigLoader.objects s0 !! payload
  = Some (ODict [("Log", VRef section)]) ->
  KeyValueConfigLoader.objects s0 !! section
  = Some (ODict [("level", VInt 10)]) ->
  KeyValueConfigLoader.load_config ["report.csv"; "--verbose"] ∅
    {["verbose" := (VRef payload, "desc")]} s0
  = (Raise NameError,
     {| KeyValueConfigLoader.objects := KeyValueConfigLoader.objects s0 ++ [OConfig ∅];
        KeyValueConfigLoader.config := List.length (KeyValueConfigLoader.objects s0);
        KeyValueConfigLoader.extra_args := ["report.csv"] |}).
Proof.
  intros Hpayload Hsection. unfold KeyValueConfigLoader.load_config.
  rewrite (bind_ok _ _ _ _ _ (clear_spec s0)).
  erewrite bind_raise; [reflexivity|].
  cbn [KeyValueConfigLoader.load_items].
  erewrite bind_ok;
    [|apply (load_item_extra _ _ "report.csv"); reflexivity].
  erewrite bind_raise; [reflexivity|].
  apply (load_item_flag_name_error _ _ "verbose" "desc" payload "Log"
           (VRef section) []).
  - reflexivity.
  - apply lookup_singleton_eq.
  - cbn [KeyValueConfigLoader.objects].
    rewrite lookup_app_l by (eapply lookup_lt_Some; exact Hpayload).
    exact Hpayload.
Qed.

(** The payload at 0 and 1, from a loader that holds nothing else. *)
Lemma kv_flag_raises_name_error_witness :
  KeyValueConfigLoader.load_config (H := Stock.host [] [])
    ["report.csv"; "--verbose"] ∅ {["verbose" := (VRef 0, "desc")]}
    {| KeyValueConfigLoader.objects :=
         [ODict [("Log", VRef 1)]; ODict [("level", VInt 10)]];
       KeyValueConfigLoader.config := 0;
       KeyValueConfigLoader.extra_args := [] |}
  = (Raise NameError,
     {| KeyValueConfigLoader.objects :=
          [ODict [("Log", VRef 1)]; ODict [("level", VInt 10)]; OConfig ∅];
        KeyValueConfigLoader.config := 2;
        KeyValueConfigLoader.extra_args := ["report.csv"] |}).
Proof.
  apply (kv_flag_raises_name_error (H := Stock.host [] [])
           {| KeyValueConfigLoader.objects :=
                [ODict [("Log", VRef 1)]; ODict [("level", VInt 10)]];
              KeyValueConfigLoader.config := 0;
              KeyValueConfigLoader.extra_args := [] |} 0 1);
    reflexivity.
Defined.

(** C10, on the code.  A flag payload does not reach the raw dictionary
    update: with the payload [{"Log": {"Level": 10}}], loading [--verbose]
    raises [NameError] at [self.config["Log"]] and the config stays empty.
    A merge does reach it: merging [{"Level": 10}] into an empty [Config]
    stores the integer 10 under the section key [Level], an entry that is no
    [Config]; assigning the same key and value directly raises
    ([NameError], before either check of [__setitem__] is made). *)
Theorem flag_payload_is_not_applied `{Host} (s0 : KeyValueConfigLoader.state)
    (payload section : loc) (fuel : nat) (h : heap) (self other : loc) :
  KeyValueConfigLoader.objects s0 !! payload
  = Some (ODict [("Log", VRef section)]) ->
  KeyValueConfigLoader.objects s0 !! section
  = Some (ODict [("Level", VInt 10)]) ->
  h !! self = Some (OConfig ∅) ->
  h !! other = Some (OConfig [("Level", VInt 10)]) ->
  KeyValueConfigLoader.load_config ["--verbose"] ∅
    {["verbose" := (VRef payload, "desc")]} s0
  = (Raise NameError,
     {| KeyValueConfigLoader.objects := KeyValueConfigLoader.objects s0 ++ [OConfig ∅];
        KeyValueConfigLoader.config := List.length (KeyValueConfigLoader.objects s0);
        KeyValueConfigLoader.extra_args := [] |})
  /\ Config._merge (S fuel) self other h
     = (Ok tt, <[self := OConfig [("Level", VInt 10)]]> h)
  /\ Config._is_section_key "Level" = Ok true
  /\ is_config (<[self := OConfig [("Level", VInt 10)]]> h) (VInt 10) = false
  /\ Config.__setitem__ self "Level" (VInt 10)
       (<[self := OConfig [("Level", VInt 10)]]> h)
     = (Raise NameError, <[self := OConfig [("Level", VInt 10)]]> h).
Proof.
  intros Hpayload Hsection Hself Hother. split; [|split; [|split; [|split]]].
  - unfold KeyValueConfigLoader.load_config.
    rewrite (bind_ok _ _ _ _ _ (clear_spec s0)).
    erewrite bind_raise; [reflexivity|].
    cbn [KeyValueConfigLoader.load_items].
    erewrite bind_raise; [reflexivity|].
    apply (load_item_flag_name_error _ _ "verbose" "desc" payload "Log"
             (VRef section) []).
    + reflexivity.
    + apply lookup_singleton_eq.
    + cbn [KeyValueConfigLoader.objects].
      rewrite lookup_app_l by (eapply lookup_lt_Some; exact Hpayload).
      exact Hpayload.
  - rewrite (merge_leaves fuel h self other _ _ Hself eq_refl eq_refl Hother
               eq_refl); [reflexivity|].
    apply Forall_cons; split; [split; [eexists|]; reflexivity|].
    apply Forall_nil. exact I.
  - reflexivity.
  - reflexivity.
  - reflexivity.
Qed.

(** The payload at 0 and 1 of the loader's heap; the receiver at 0 and the
    merged config at 1 of the other heap. *)
Lemma flag_payload_is_not_applied_witness :
  KeyValueConfigLoader.load_config (H := Stock.host [] []) ["--verbose"] ∅
    {["verbose" := (VRef 0, "desc")]}
    {| KeyValueConfigLoader.objects :=
         [ODict [("Log", VRef 1)]; ODict [("Level", VInt 10)]];
       KeyValueConfigLoader.config := 0;
       KeyValueConfigLoader.extra_args := [] |}
  = (Raise NameError,
     {| KeyValueConfigLoader.objects :=
          [ODict [("Log", VRef 1)]; ODict [("Level", VInt 10)]; OConfig ∅];
        KeyValueConfigLoader.config := 2;
        KeyValueConfigLoader.extra_args := [] |})
  /\ Config._merge 1 0 1 [OConfig ∅; OConfig [("Level", VInt 10)]]
     = (Ok tt, [OConfig [("Level", VInt 10)]; OConfig [("Level", VInt 10)]])
  /\ Config._is_section_key "Level" = Ok true
  /\ is_config [OConfig [("Level", VInt 10)]; OConfig [("Level", VInt 10)]]
       (VInt 10) = false
  /\ Config.__setitem__ 0 "Level" (VInt 10)
       [OConfig [("Level", VInt 10)]; OConfig [("Level", VInt 10)]]
     = (Raise NameError,
        [OConfig [("Level", VInt 10)]; OConfig [("Level", VInt 10)]]).
Proof.
  apply (flag_payload_is_not_applied (H := Stock.host [] [])
           {| KeyValueConfigLoader.objects :=
                [ODict [("Log", VRef 1)]; ODict [("Level", VInt 10)]];
              KeyValueConfigLoader.config := 0;
              KeyValueConfigLoader.extra_args := [] |} 0 1 0
           [OConfig ∅; OConfig [("Level", VInt 10)]] 0 1);
    reflexivity.
Defined.

(** * Further properties of the same code *)

(** ** The entries of a dictionary *)

Lemma entries_get_del_eq d k : entries_get (entries_del d k) k = None.
Proof.
  induction d as [|[k' v'] rest IH]; simpl; [reflexivity|].
  destruct (String.eqb k' k) eqn:Hk; [exact IH|].
  simpl. rewrite Hk. exact IH.
Qed.

Lemma entries_get_del_ne d k k' :
  k' <> k -> entries_get (entries_del d k) k' = entries_get d k'.
Proof.
  intros Hne. induction d as [|[k0 v0] rest IH]; simpl; [reflexivity|].
  destruct (String.eqb_spec k0 k) as [->|Hk0].
  - rewrite IH. destruct (String.eqb_spec k k'); [congruence|reflexivity].
  - simpl. rewrite IH. reflexivity.
Qed.

Lemma entries_set_fresh d k v :
  entries_get d k = None -> entries_set d k v = d ++ [(k, v)].
Proof.
  induction d as [|[k' v'] rest IH]; simpl; [reflexivity|].
  destruct (String.eqb k' k); [discriminate|].
  intros Hrest. rewrite (IH Hrest). reflexivity.
Qed.

Lemma entries_get_app_fresh d k k' v :
  k' <> k -> entries_get (d ++ [(k, v)]) k' = entries_get d k'.
Proof.
  intros Hne. induction d as [|[k0 v0] rest IH]; simpl.
  - destruct (String.eqb_spec k k'); [congruence|reflexivity].
  - rewrite IH. reflexivity.
Qed.

(** Filling an empty dictionary from entries with distinct keys gives those
    entries, in their order. *)
Lemma entries_update_distinct items : forall acc,
  (forall k, k ∈ items.*1 -> entries_get acc k = None) ->
  NoDup (items.*1) ->
  entries_update acc items = acc ++ items.
Proof.
  induction items as [|[k v] rest IH]; intros acc Hacc Hnd; simpl.
  - rewrite app_nil_r. reflexivity.
  - simpl in Hnd. apply NoDup_cons in Hnd as [Hk Hrest].
    rewrite entries_set_fresh by (apply Hacc; simpl; left).
    rewrite IH; [rewrite <- app_assoc; reflexivity| |exact Hrest].
    intros k' Hk'. rewrite entries_get_app_fresh.
    + apply Hacc. simpl. right. exact Hk'.
    + intros ->. contradiction.
Qed.

(** ** Attribute syntax on what is stored *)

Section AttributeFacts.
Context `{Host}.

Lemma getattr_stored self key h d v :
  h !! self = Some (OConfig d) ->
  class_attr key = false ->
  entries_get d key = Some v ->
  Config.getattr (VRef self) key h = (Ok v, h).
Proof.
  intros Hself Hclass Hv. unfold Config.getattr.
  rewrite Hself, Hclass, Hv. reflexivity.
Qed.

Lemma delattr_stored self key h d v :
  h !! self = Some (OConfig d) ->
  entries_get d key = Some v ->
  Config.delattr (VRef self) key h
  = (Ok tt, <[self := OConfig (entries_del d key)]> h).
Proof.
  intros Hself Hv. unfold Config.delattr. rewrite Hself.
  unfold Config.__delattr__, key_to_attribute_error, dict_delitem.
  rewrite Hself. simpl. rewrite Hv. reflexivity.
Qed.

Lemma delattr_missing self key h d :
  h !! self = Some (OConfig d) ->
  entries_get d key = None ->
  Config.delattr (VRef self) key h = (Raise AttributeError, h).
Proof.
  intros Hself Hv. unfold Config.delattr. rewrite Hself.
  unfold Config.__delattr__, key_to_attribute_error, dict_delitem.
  rewrite Hself. simpl. rewrite Hv. reflexivity.
Qed.

End AttributeFacts.

(** X7.  [del c.key] removes the entry stored under [key] and nothing
    else: the other entries keep their values and their order.  Deleting a
    key that is not stored raises [AttributeError] and changes nothing; so
    does deleting the same key a second time. *)
Theorem delattr_removes_the_entry (h : heap) (self : loc) (d : dict)
    (key : string) :
  h !! self = Some (OConfig d) ->
  (forall v : value, entries_get d key = Some v ->
     Config.delattr (VRef self) key h
     = (Ok tt, <[self := OConfig (entries_del d key)]> h)
     /\ entries_get (entries_del d key) key = None
     /\ (forall k' : string, k' <> key ->
           entries_get (entries_del d key) k' = entries_get d k')
     /\ Config.delattr (VRef self) key (<[self := OConfig (entries_del d key)]> h)
        = (Raise AttributeError, <[self := OConfig (entries_del d key)]> h))
  /\ (entries_get d key = None ->
      Config.delattr (VRef self) key h = (Raise AttributeError, h)).
Proof.
  intros Hself. split.
  - intros v Hv. split; [eapply delattr_stored; eassumption|].
    split; [apply entries_get_del_eq|].
    split; [intros k' Hne; apply entries_get_del_ne; exact Hne|].
    eapply delattr_missing; [|apply entries_get_del_eq].
    apply list_lookup_insert_eq. eapply lookup_lt_Some. exact Hself.
  - intros Hv. eapply delattr_missing; eassumption.
Qed.

(** A config with [a = 1], [b = 2], [c = 3]: deleting [b], then [b] again,
    and deleting [z]. *)
Lemma delattr_removes_the_entry_witness :
  Config.delattr (VRef 0) "b" [OConfig [("a", VInt 1); ("b", VInt 2); ("c", VInt 3)]]
  = (Ok tt, [OConfig [("a", VInt 1); ("c", VInt 3)]])
  /\ Config.delattr (VRef 0) "b" [OConfig [("a", VInt 1); ("c", VInt 3)]]
     = (Raise AttributeError, [OConfig [("a", VInt 1); ("c", VInt 3)]]).
Proof.
  destruct (delattr_removes_the_entry
              [OConfig [("a", VInt 1); ("b", VInt 2); ("c", VInt 3)]] 0
              [("a", VInt 1); ("b", VInt 2); ("c", VInt 3)] "b" eq_refl)
    as [Hstored _].
  destruct (Hstored (VInt 2) eq_refl) as (Hdel & _ & _ & Hagain).
  split; [exact Hdel|exact Hagain].
Defined.

(** X8.  [_has_section] tells what [in] does not.  For a section key, [key
    in c] is true whether or not the key is stored, while [_has_section] is
    true exactly when it is stored; for a key that is no section key,
    [_has_section] is false even when the key is stored.  (On a [Config]
    that stores no entry named [_is_section_key].) *)
Theorem has_section_needs_a_stored_key (h : heap) (self : loc) (d : dict)
    (key : string) :
  h !! self = Some (OConfig d) ->
  entries_get d "_is_section_key" = None ->
  (Config._is_section_key key = Ok true ->
     Config.__contains__ self key h = (Ok true, h)
     /\ Config._has_section self key h
        = (Ok (match entries_get d key with Some _ => true | None => false end), h))
  /\ (Config._is_section_key key = Ok false ->
      Config._has_section self key h = (Ok false, h)).
Proof.
  intros Hself Hfree. split.
  - intros Hk. split; [eapply contains_section_key; eassumption|].
    unfold Config._has_section.
    rewrite (bind_ok _ _ _ _ _ (method_free _ _ _ _ _ Hself Hfree)).
    unfold bind, lift_outcome. rewrite Hk.
    unfold dict_contains, bind, dict_of. rewrite Hself. simpl.
    destruct (entries_get d key); reflexivity.
  - intros Hk. unfold Config._has_section.
    rewrite (bind_ok _ _ _ _ _ (method_free _ _ _ _ _ Hself Hfree)).
    unfold bind, lift_outcome. rewrite Hk. reflexivity.
Qed.

(** A config that stores the section [Log] and the leaf [level]: asked for
    [Log], for [App] and for [level]. *)
Lemma has_section_needs_a_stored_key_witness :
  Config.__contains__ 0 "App" [OConfig [("Log", VRef 1); ("level", VInt 3)]; OConfig ∅]
  = (Ok true, [OConfig [("Log", VRef 1); ("level", VInt 3)]; OConfig ∅])
  /\ Config._has_section 0 "App" [OConfig [("Log", VRef 1); ("level", VInt 3)]; OConfig ∅]
     = (Ok false, [OConfig [("Log", VRef 1); ("level", VInt 3)]; OConfig ∅]).
Proof.
  destruct (has_section_needs_a_stored_key
              [OConfig [("Log", VRef 1); ("level", VInt 3)]; OConfig ∅] 0
              [("Log", VRef 1); ("level", VInt 3)] "App" eq_refl eq_refl)
    as [Hsection _].
  exact (Hsection eq_refl).
Defined.

Lemma copy_spec self h d :
  h !! self = Some (OConfig d) ->
  Config.copy self h = (Ok (S (List.length h)), h ++ [ODict d; OConfig d]).
Proof.
  intros Hself. unfold Config.copy, bind, dict_of, alloc. rewrite Hself. simpl.
  rewrite length_app. simpl. rewrite Nat.add_1_r, <- app_assoc. reflexivity.
Qed.

Lemma lookup_copy (h : heap) d :
  (h ++ [ODict d; OConfig d]) !! S (List.length h) = Some (OConfig d).
Proof.
  rewrite lookup_app_r by lia.
  replace (S (List.length h) - List.length h) with 1 by lia. reflexivity.
Qed.

(** X9.  [copy] returns a new [Config] with the entries of the original, in
    their order, next to the plain dictionary [dict.copy] made on the way;
    no object that was there changes.  The copy is independent at its top
    level: deleting a key from the copy leaves the original with all its
    entries. *)
Theorem copy_is_independent_at_top (h : heap) (self : loc) (d : dict)
    (key : string) (v : value) :
  h !! self = Some (OConfig d) ->
  entries_get d key = Some v ->
  Config.copy self h = (Ok (S (List.length h)), h ++ [ODict d; OConfig d])
  /\ exists h' : heap,
       Config.delattr (VRef (S (List.length h))) key (h ++ [ODict d; OConfig d])
       = (Ok tt, h')
       /\ h' !! S (List.length h) = Some (OConfig (entries_del d key))
       /\ h' !! self = Some (OConfig d).
Proof.
  intros Hself Hv. pose proof (lookup_copy h d) as Hcopy.
  split.
  - apply copy_spec. exact Hself.
  - eexists. split; [eapply delattr_stored; eassumption|]. split.
    + apply list_lookup_insert_eq. eapply lookup_lt_Some. exact Hcopy.
    + apply lookup_lt_Some in Hself as Hlt.
      rewrite list_lookup_insert_ne by lia.
      rewrite lookup_app_l by exact Hlt. exact Hself.
Qed.

(** A config with [a = 1] and [b = 2], copied; [b] deleted from the copy. *)
Lemma copy_is_independent_at_top_witness :
  Config.copy 0 [OConfig [("a", VInt 1); ("b", VInt 2)]]
  = (Ok 2, [OConfig [("a", VInt 1); ("b", VInt 2)];
            ODict [("a", VInt 1); ("b", VInt 2)];
            OConfig [("a", VInt 1); ("b", VInt 2)]])
  /\ exists h' : heap,
       Config.delattr (VRef 2) "b"
         [OConfig [("a", VInt 1); ("b", VInt 2)];
          ODict [("a", VInt 1); ("b", VInt 2)];
          OConfig [("a", VInt 1); ("b", VInt 2)]] = (Ok tt, h')
       /\ h' !! 2 = Some (OConfig [("a", VInt 1)])
       /\ h' !! 0 = Some (OConfig [("a", VInt 1); ("b", VInt 2)]).
Proof.
  apply (copy_is_independent_at_top [OConfig [("a", VInt 1); ("b", VInt 2)]] 0
           [("a", VInt 1); ("b", VInt 2)] "b" (VInt 2)); reflexivity.
Defined.

(** X10.  The copy is shallow: a section of the original is the same
    object in the copy.  Deleting [key] through the copy's section,
    [del copy.sec.key], takes it away from the section the original
    holds. *)
Theorem copy_shares_sections `{Host} (h : heap) (self section : loc)
    (d ds : dict) (sec key : string) (v : value) :
  h !! self = Some (OConfig d) ->
  class_attr sec = false ->
  entries_get d sec = Some (VRef section) ->
  section <> self ->
  h !! section = Some (OConfig ds) ->
  entries_get ds key = Some v ->
  exists (c : loc) (h1 h2 : heap),
    Config.copy self h = (Ok c, h1)
    /\ Config.delattr_path (VRef c) [sec; key] h1 = (Ok tt, h2)
    /\ Config.getattr (VRef self) sec h2 = (Ok (VRef section), h2)
    /\ h2 !! section = Some (OConfig (entries_del ds key)).
Proof.
  intros Hself Hclass Hsec Hne Hsection Hkey.
  pose proof (copy_spec self h d Hself) as Hcopy.
  pose proof (lookup_copy h d) as Hc.
  apply lookup_lt_Some in Hself as Hlt.
  apply lookup_lt_Some in Hsection as Hlts.
  assert (Hs1 : (h ++ [ODict d; OConfig d]) !! section = Some (OConfig ds)).
  { rewrite lookup_app_l by exact Hlts. exact Hsection. }
  exists (S (List.length h)), (h ++ [ODict d; OConfig d]),
    (<[section := OConfig (entries_del ds key)]> (h ++ [ODict d; OConfig d])).
  split; [exact Hcopy|]. split; [|split].
  - cbn [Config.delattr_path].
    rewrite (bind_ok _ _ _ _ _ (getattr_stored _ sec _ d _ Hc Hclass Hsec)).
    eapply delattr_stored; eassumption.
  - eapply getattr_stored; [|exact Hclass|exact Hsec].
    rewrite list_lookup_insert_ne by congruence.
    rewrite lookup_app_l by exact Hlt. exact Hself.
  - apply list_lookup_insert_eq. rewrite length_app. lia.
Qed.

(** A config whose section [Log] holds [level = 10], copied; [level]
    deleted through the copy. *)
Lemma copy_shares_sections_witness :
  exists (c : loc) (h1 h2 : heap),
    Config.copy 0 [OConfig [("Log", VRef 1)]; OConfig [("level", VInt 10)]]
    = (Ok c, h1)
    /\ Config.delattr_path (H := Stock.host [] []) (VRef c) ["Log"; "level"] h1
       = (Ok tt, h2)
    /\ Config.getattr (H := Stock.host [] []) (VRef 0) "Log" h2 = (Ok (VRef 1), h2)
    /\ h2 !! 1 = Some (OConfig (entries_del [("level", VInt 10)] "level")).
Proof.
  apply (copy_shares_sections (H := Stock.host [] [])
           [OConfig [("Log", VRef 1)]; OConfig [("level", VInt 10)]] 0 1
           [("Log", VRef 1)] [("level", VInt 10)] "Log" "level" (VInt 10));
    solve [reflexivity | discriminate].
Defined.

(** X29.  Attribute syntax reads what is stored without asking
    [__getitem__]: for a key the class does not bind, [c.key] returns the
    stored value and changes nothing.  A key that is neither stored nor
    bound on the class goes to [__getattr__], which raises [NameError]: a
    section key is not vivified by [c.Key] either. *)
Theorem attribute_read_of_stored_key `{Host} (h : heap) (self : loc)
    (d : dict) (key : string) :
  h !! self = Some (OConfig d) ->
  class_attr key = false ->
  (forall v : value, entries_get d key = Some v ->
     Config.getattr (VRef self) key h = (Ok v, h))
  /\ (entries_get d key = None ->
      entries_get d "__getitem__" = None ->
      Config.getattr (VRef self) key h = (Raise NameError, h)).
Proof.
  intros Hself Hclass. split.
  - intros v Hv. eapply getattr_stored; eassumption.
  - intros Hv Hfree. unfold Config.getattr. rewrite Hself, Hclass, Hv.
    unfold Config.__getattr__, key_to_attribute_error.
    rewrite (bind_ok _ _ _ _ _ (method_free _ _ _ _ _ Hself Hfree)).
    reflexivity.
Qed.

(** [c.level] and [c.Log] on a config that stores [level = 10] only. *)
Lemma attribute_read_of_stored_key_witness :
  Config.getattr (H := Stock.host [] []) (VRef 0) "level"
    [OConfig [("level", VInt 10)]]
  = (Ok (VInt 10), [OConfig [("level", VInt 10)]])
  /\ Config.getattr (H := Stock.host [] []) (VRef 0) "Log"
       [OConfig [("level", VInt 10)]]
     = (Raise NameError, [OConfig [("level", VInt 10)]]).
Proof.
  split.
  - apply (attribute_read_of_stored_key (H := Stock.host [] [])
             [OConfig [("level", VInt 10)]] 0 [("level", VInt 10)] "level");
      reflexivity.
  - apply (attribute_read_of_stored_key (H := Stock.host [] [])
             [OConfig [("level", VInt 10)]] 0 [("level", VInt 10)] "Log");
      reflexivity.
Defined.

(** ** The command line, token by token *)

Lemma dash_is_no_word_start item :
  starts_with_dash item = false ->
  flag_match item = false /\ flag_depends item = false.
Proof.
  destruct item as [|c r]; [split; reflexivity|].
  unfold starts_with_dash, flag_match, flag_depends.
  destruct (Ascii.eqb_spec c "-") as [->|Hne]; [discriminate|].
  intros _. destruct c as [[] [] [] [] [] [] [] []]; try (split; reflexivity).
  contradiction Hne. reflexivity.
Qed.

Lemma dash_is_no_letter item :
  starts_with_dash item = true -> kv_pattern item = Fails.
Proof.
  destruct item as [|c r]; [reflexivity|].
  unfold starts_with_dash, kv_pattern.
  destruct c as [[] [] [] [] [] [] [] []]; try discriminate. reflexivity.
Qed.

Section TokenFacts.
Context `{Host}.

Lemma load_items_positional aliases flags argv : forall s,
  Forall (fun item => kv_pattern item = Fails /\ starts_with_dash item = false)
         argv ->
  KeyValueConfigLoader.load_items aliases flags argv s
  = (Ok tt, {| KeyValueConfigLoader.objects := KeyValueConfigLoader.objects s;
               KeyValueConfigLoader.config := KeyValueConfigLoader.config s;
               KeyValueConfigLoader.extra_args :=
                 KeyValueConfigLoader.extra_args s ++ argv |}).
Proof.
  induction argv as [|item rest IH]; intros s Hargv.
  - simpl. rewrite app_nil_r. destruct s. reflexivity.
  - apply Forall_cons in Hargv as [[Hkv Hdash] Hrest]. simpl.
    destruct (dash_is_no_word_start item Hdash) as [Hflag Hdep].
    rewrite (bind_ok _ _ _ _ _
               (load_item_extra aliases flags item s Hkv Hflag Hdep Hdash)).
    rewrite IH by assumption. simpl. rewrite <- app_assoc. reflexivity.
Qed.

Lemma load_item_invalid aliases flags item s :
  starts_with_dash item = true ->
  flag_match item = false ->
  flag_depends item = false ->
  KeyValueConfigLoader.load_item aliases flags item s
  = (Raise (ArgumentError (InvalidArgument item)), s).
Proof.
  intros Hdash Hflag Hdep. unfold KeyValueConfigLoader.load_item.
  rewrite (dash_is_no_letter item Hdash), Hflag, Hdep, Hdash. reflexivity.
Qed.

End TokenFacts.

(** X15.  Tokens that [kv_pattern] does not match and that do not start
    with a dash are kept, all of them and in their order: loading such a
    list returns a new empty config and leaves the list itself as the extra
    arguments, whatever extra arguments and config the loader held
    before. *)
Theorem positional_tokens_become_extra_args `{Host} (argv : list string)
    (aliases : gmap string string) (flags : gmap string (value * string))
    (s : KeyValueConfigLoader.state) :
  Forall (fun item => kv_pattern item = Fails /\ starts_with_dash item = false)
         argv ->
  KeyValueConfigLoader.load_config argv aliases flags s
  = (Ok (List.length (KeyValueConfigLoader.objects s)),
     {| KeyValueConfigLoader.objects :=
          KeyValueConfigLoader.objects s ++ [OConfig ∅];
        KeyValueConfigLoader.config := List.length (KeyValueConfigLoader.objects s);
        KeyValueConfigLoader.extra_args := argv |}).
Proof.
  intros Hargv. unfold KeyValueConfigLoader.load_config.
  rewrite (bind_ok _ _ _ _ _ (clear_spec s)).
  rewrite (bind_ok _ _ _ _ _ (load_items_positional aliases flags argv _ Hargv)).
  reflexivity.
Qed.

(** Two file names after a load that had left an extra argument. *)
Lemma positional_tokens_become_extra_args_witness :
  KeyValueConfigLoader.load_config (H := Stock.host [] [])
    ["report.csv"; "notes.txt"] ∅ ∅
    {| KeyValueConfigLoader.objects := [OConfig ∅];
       KeyValueConfigLoader.config := 0;
       KeyValueConfigLoader.extra_args := ["old"] |}
  = (Ok 1,
     {| KeyValueConfigLoader.objects := [OConfig ∅; OConfig ∅];
        KeyValueConfigLoader.config := 1;
        KeyValueConfigLoader.extra_args := ["report.csv"; "notes.txt"] |}).
Proof.
  apply (positional_tokens_become_extra_args (H := Stock.host [] [])
           ["report.csv"; "notes.txt"] ∅ ∅
           {| KeyValueConfigLoader.objects := [OConfig ∅];
              KeyValueConfigLoader.config := 0;
              KeyValueConfigLoader.extra_args := ["old"] |}).
  repeat (apply Forall_cons; split; [split; reflexivity|]).
  apply Forall_nil. exact I.
Defined.

(** X16.  A token that starts with a dash and is not followed by a second
    dash and a word character, ASCII or not (such as [-x], [-] or [--]),
    raises the invalid-argument [ArgumentError], whatever the flags mapping
    holds; when the tokens before it load into a state, the loader is left
    in exactly that state. *)
Theorem dash_token_is_invalid `{Host} (aliases : gmap string string)
    (flags : gmap string (value * string)) (pre rest : list string)
    (item : string) (s0 s1 : KeyValueConfigLoader.state) (c : loc) :
  starts_with_dash item = true ->
  flag_match item = false ->
  flag_depends item = false ->
  KeyValueConfigLoader.load_config pre aliases flags s0 = (Ok c, s1) ->
  KeyValueConfigLoader.load_config (pre ++ item :: rest) aliases flags s0
  = (Raise (ArgumentError (InvalidArgument item)), s1).
Proof.
  intros Hdash Hflag Hdep Hload.
  unfold KeyValueConfigLoader.load_config, bind in Hload.
  destruct (KeyValueConfigLoader.clear s0) as [[[]| |] sc] eqn:Hclear;
    try discriminate.
  destruct (KeyValueConfigLoader.load_items aliases flags pre sc)
    as [[[]| |] sp] eqn:Hpre; try discriminate.
  unfold KeyValueConfigLoader.get_config in Hload. injection Hload as _ <-.
  unfold KeyValueConfigLoader.load_config.
  rewrite (bind_ok _ _ _ _ _ Hclear).
  erewrite bind_raise; [reflexivity|].
  rewrite load_items_app, (bind_ok _ _ _ _ _ Hpre). simpl.
  erewrite bind_raise; [reflexivity|].
  apply load_item_invalid; assumption.
Qed.

(** [report.csv], then [-x], then [y], on the stock host. *)
Lemma dash_token_is_invalid_witness :
  KeyValueConfigLoader.load_config (H := Stock.host [] [])
    ["report.csv"; "-x"; "y"] ∅ ∅
    {| KeyValueConfigLoader.objects := [];
       KeyValueConfigLoader.config := 0;
       KeyValueConfigLoader.extra_args := [] |}
  = (Raise (ArgumentError (InvalidArgument "-x")),
     {| KeyValueConfigLoader.objects := [OConfig ∅];
        KeyValueConfigLoader.config := 0;
        KeyValueConfigLoader.extra_args := ["report.csv"] |}).
Proof.
  apply (dash_token_is_invalid (H := Stock.host [] []) ∅ ∅ ["report.csv"] ["y"]
           "-x" _ _ 0).
  - reflexivity.
  - reflexivity.
  - reflexivity.
  - vm_compute. reflexivity.
Defined.

(** X18.  A flag whose payload is neither [None] nor an object of the
    heap (a string such as ["key=value"], a number) does not raise the
    [ValueError] the source writes: building its message names a variable
    that does not exist, so the token raises [NameError]; the loader is
    left as it was. *)
Theorem flag_with_other_payload_raises_name_error `{Host}
    (aliases : gmap string string) (flags : gmap string (value * string))
    (name help : string) (payload : value) (s : KeyValueConfigLoader.state) :
  flag_match (String.append "--" name) = true ->
  flags !! name = Some (payload, help) ->
  payload <> VNone ->
  (forall l, payload = VRef l -> KeyValueConfigLoader.objects s !! l = None) ->
  KeyValueConfigLoader.load_item aliases flags (String.append "--" name) s
  = (Raise NameError, s).
Proof.
  intros Hflag Hname Hnone Hdict. unfold KeyValueConfigLoader.load_item.
  change (kv_pattern (String.append "--" name)) with Fails. cbv iota.
  rewrite Hflag, flag_name, Hname.
  destruct payload as [| | | | | |l]; try reflexivity; [contradiction|].
  rewrite (Hdict l eq_refl). reflexivity.
Qed.

(** The flag [--quick] with the payload ["Log.level=10"], on the stock
    host. *)
Lemma flag_with_other_payload_raises_name_error_witness :
  KeyValueConfigLoader.load_item (H := Stock.host [] []) ∅
    {["quick" := (VStr "Log.level=10", "desc")]} "--quick"
    {| KeyValueConfigLoader.objects := [OConfig ∅];
       KeyValueConfigLoader.config := 0;
       KeyValueConfigLoader.extra_args := [] |}
  = (Raise NameError,
     {| KeyValueConfigLoader.objects := [OConfig ∅];
        KeyValueConfigLoader.config := 0;
        KeyValueConfigLoader.extra_args := [] |}).
Proof.
  apply (flag_with_other_payload_raises_name_error (H := Stock.host [] []) ∅
           {["quick" := (VStr "Log.level=10", "desc")]} "quick" "desc"
           (VStr "Log.level=10")).
  - reflexivity.
  - reflexivity.
  - discriminate.
  - discriminate.
Defined.

Lemma word_is_no_separator c :
  is_word c = true -> Ascii.eqb c "=" = false /\ Ascii.eqb c "." = false.
Proof. destruct c as [[] [] [] [] [] [] [] []]; try discriminate; auto. Qed.

Lemma letter_is_word c : is_letter c = true -> is_word c = true.
Proof. unfold is_word. intros ->. reflexivity. Qed.

Lemma kv_tail_shape n : forall s,
  String.length s <= n ->
  kv_tail s = Matches ->
  exists l r,
    split_eq s = (l, r)
    /\ s = String.append l (String "=" r)
    /\ exists w ws,
         split_dots l = w :: ws
         /\ all_word w = true
         /\ Forall (fun x => x <> EmptyString /\ all_word x = true) ws.
Proof.
  induction n as [|n IH]; intros s Hlen Htail.
  - destruct s; [discriminate Htail|simpl in Hlen; lia].
  - destruct s as [|c s]; [discriminate Htail|].
    simpl in Hlen. simpl in Htail.
    destruct (is_word c) eqn:Hc.
    + destruct (word_is_no_separator c Hc) as [Heq Hdot].
      destruct (IH s ltac:(lia) Htail) as (l & r & Hsplit & Hs & w & ws & Hd & Hw & Hws).
      exists (String c l), r. simpl. rewrite Heq, Hsplit, Hdot, Hd.
      split; [reflexivity|]. split; [rewrite Hs at 1; reflexivity|].
      exists (String c w), ws. split; [reflexivity|].
      split; [simpl; rewrite Hc; exact Hw|exact Hws].
    + destruct (Ascii.eqb_spec c "=") as [->|Hne].
      * exists EmptyString, s. simpl. split; [reflexivity|].
        split; [reflexivity|]. exists EmptyString, []. auto.
      * destruct (Ascii.eqb_spec c ".") as [->|Hnd];
          [|destruct (is_ascii c); discriminate].
        destruct s as [|c' s']; [discriminate|].
        destruct (is_word c') eqn:Hc';
          [|destruct (is_ascii c'); discriminate].
        destruct (word_is_no_separator c' Hc') as [Heq' Hdot'].
        simpl in Hlen.
        destruct (IH s' ltac:(lia) Htail)
          as (l & r & Hsplit & Hs & w & ws & Hd & Hw & Hws).
        exists (String "." (String c' l)), r. simpl.
        rewrite Heq', Hsplit, Hdot', Hd.
        split; [reflexivity|]. split; [rewrite Hs at 1; reflexivity|].
        exists EmptyString, (String c' w :: ws). split; [reflexivity|].
        split; [reflexivity|].
        apply Forall_cons. split; [|exact Hws].
        split; [discriminate|]. simpl. rewrite Hc'. exact Hw.
Qed.

(** X20.  What [kv_pattern] guarantees of a token it matches by ASCII
    characters alone (no character outside ASCII before the [=]): the token
    is [lhs=rhs] for the two halves that [split('=', 1)] returns, the left
    half starts with a letter, and its components between dots are
    non-empty runs of ASCII word characters. *)
Theorem matched_assignment_has_dotted_path (item : string) :
  kv_pattern item = Matches ->
  exists lhs rhs,
    split_eq item = (lhs, rhs)
    /\ item = String.append lhs (String "=" rhs)
    /\ (exists c rest, lhs = String c rest /\ is_letter c = true)
    /\ Forall (fun w => w <> EmptyString /\ all_word w = true) (split_dots lhs).
Proof.
  destruct item as [|c s]; [discriminate|]. simpl.
  destruct (is_letter c) eqn:Hc; [|discriminate]. intros Htail.
  pose proof (letter_is_word c Hc) as Hw.
  destruct (word_is_no_separator c Hw) as [Heq Hdot].
  destruct (kv_tail_shape (String.length s) s (le_n _) Htail)
    as (l & r & Hsplit & Hs & w & ws & Hd & Hword & Hws).
  exists (String c l), r. rewrite Heq, Hsplit.
  split; [reflexivity|]. split; [simpl; rewrite Hs at 1; reflexivity|].
  split; [eauto|].
  simpl. rewrite Hdot, Hd. apply Forall_cons. split; [|exact Hws].
  split; [discriminate|]. simpl. rewrite Hw. exact Hword.
Qed.

(** The token [A.name='brian']. *)
Lemma matched_assignment_has_dotted_path_witness :
  exists lhs rhs,
    split_eq "A.name='brian'" = (lhs, rhs)
    /\ "A.name='brian'" = String.append lhs (String "=" rhs)
    /\ (exists c rest, lhs = String c rest /\ is_letter c = true)
    /\ Forall (fun w => w <> EmptyString /\ all_word w = true) (split_dots lhs).
Proof.
  apply (matched_assignment_has_dotted_path "A.name='brian'"). reflexivity.
Defined.

(** ** Assignments on the command line *)

Section AssignmentFacts.
Context `{Host}.






End AssignmentFacts.



(** ** Scripts that load scripts *)

Section ScriptFacts.
Context `{Host}.

Lemma self_load_raises filename path full rest :
  filefind filename path = Some full ->
  read_script full = SLoadSubconfig filename None :: rest ->
  forall fuel h, exists h',
    PyFileConfigLoader.load_config fuel filename path h
    = (Raise RecursionError, h').
Proof.
  intros Hfound Hbody. induction fuel as [|n IH]; intros h.
  - exists h. reflexivity.
  - rewrite load_config_unfold, Hfound, Hbody.
    assert (Hnew : Config.new h = (Ok (List.length h), h ++ [OConfig ∅]))
      by reflexivity.
    rewrite (bind_ok _ _ _ _ _ Hnew).
    destruct (IH ((h ++ [OConfig ∅]) ++ [OConfig ∅])) as (h' & Hsub).
    exists h'.
    erewrite bind_raise; [reflexivity|].
    cbn [PyFileConfigLoader.exec_script].
    erewrite bind_raise; [reflexivity|].
    unfold PyFileConfigLoader.load_subconfig, PyFileConfigLoader.__init__.
    unfold bind, Config.new, alloc, ret. rewrite Hsub. reflexivity.
Qed.

End ScriptFacts.

(** X21.  Inclusion cycles are not detected: a script whose first statement
    is [load_subconfig] of its own file name does not load.  Whatever the
    limit on nested loads, the nesting reaches it, and the
    [RecursionError] goes through every [except IOError] on the way up to
    the caller of [load_config]. *)
Theorem script_loading_itself_raises_recursion_error `{Host}
    (filename full : string) (path : list string) (rest : script)
    (fuel : nat) (h : heap) :
  filefind filename path = Some full ->
  read_script full = SLoadSubconfig filename None :: rest ->
  fst (PyFileConfigLoader.load_config fuel filename path h)
  = Raise RecursionError.
Proof.
  intros Hfound Hbody.
  destruct (self_load_raises filename path full rest Hfound Hbody fuel h)
    as (h' & ->).
  reflexivity.
Qed.

(** The file [/etc/loop.py] that loads [loop.py], with 50 nested loads
    allowed. *)
Lemma script_loading_itself_raises_recursion_error_witness :
  fst (PyFileConfigLoader.load_config
         (H := Stock.host [("/etc/loop.py", [SLoadSubconfig "loop.py" None])] [])
         50 "loop.py" ["/etc"] []) = Raise RecursionError.
Proof.
  apply (script_loading_itself_raises_recursion_error
           (H := Stock.host [("/etc/loop.py", [SLoadSubconfig "loop.py" None])] [])
           "loop.py" "/etc/loop.py" ["/etc"] [] 50 []); reflexivity.
Defined.

(** X22.  Only a missing file is forgiven.  When the script a parent loads
    with [load_subconfig] raises anything but [IOError], the parent's
    [load_config] raises the same error and leaves the heap where the child
    left it: the statements after the call are not run. *)
Theorem child_error_is_parent_error `{Host} (fuel : nat)
    (filename full child : string) (path : list string) (rest : script)
    (h h' : heap) (e : exn) :
  filefind filename path = Some full ->
  read_script full = SLoadSubconfig child None :: rest ->
  PyFileConfigLoader.load_config (S fuel) child path (h ++ [OConfig ∅; OConfig ∅])
  = (Raise e, h') ->
  e <> IOError ->
  PyFileConfigLoader.load_config (S (S fuel)) filename path h = (Raise e, h').
Proof.
  intros Hfound Hbody Hchild Hne.
  rewrite load_config_unfold, Hfound, Hbody.
  assert (Hnew : Config.new h = (Ok (List.length h), h ++ [OConfig ∅]))
    by reflexivity.
  rewrite (bind_ok _ _ _ _ _ Hnew).
  erewrite bind_raise; [reflexivity|].
  cbn [PyFileConfigLoader.exec_script].
  erewrite bind_raise; [reflexivity|].
  unfold PyFileConfigLoader.load_subconfig, PyFileConfigLoader.__init__.
  unfold bind, Config.new, alloc, ret.
  rewrite <- app_assoc. cbn [app]. rewrite Hchild.
  destruct e; try reflexivity. contradiction.
Qed.

(** A child whose one statement is an assignment, on the stock host. *)
Lemma child_error_is_parent_error_witness :
  PyFileConfigLoader.load_config
    (H := Stock.host [("/etc/base.py",
                       [SLoadSubconfig "child.py" None;
                        SLoadSubconfig "other.py" None]);
                      ("/etc/child.py", [SAssign ["x"] (VInt 5)])] [])
    2 "base.py" ["/etc"] []
  = (Raise NameError, [OConfig ∅; OConfig ∅; OConfig ∅]).
Proof.
  apply (child_error_is_parent_error
           (H := Stock.host [("/etc/base.py",
                              [SLoadSubconfig "child.py" None;
                               SLoadSubconfig "other.py" None]);
                             ("/etc/child.py", [SAssign ["x"] (VInt 5)])] [])
           0 "base.py" "/etc/base.py" "child.py" ["/etc"]
           [SLoadSubconfig "other.py" None] []).
  - reflexivity.
  - reflexivity.
  - vm_compute. reflexivity.
  - discriminate.
Defined.

(** X28.  A script that begins with an assignment to the config does not
    load.  For [c.k = v], and for [c.k.p1...pn = v] with a first name [k]
    that the class does not bind, [load_config] raises [NameError]; the
    config it had made is still empty and the rest of the script is not
    run. *)
Theorem script_starting_with_assignment_raises_name_error `{Host}
    (fuel : nat) (filename full k : string) (p path : list string)
    (v : value) (rest : script) (h : heap) :
  filefind filename path = Some full ->
  read_script full = SAssign (k :: p) v :: rest ->
  p = [] \/ class_attr k = false ->
  PyFileConfigLoader.load_config (S fuel) filename path h
  = (Raise NameError, h ++ [OConfig ∅]).
Proof.
  intros Hfound Hbody Hfirst.
  rewrite load_config_unfold, Hfound, Hbody.
  assert (Hnew : Config.new h = (Ok (List.length h), h ++ [OConfig ∅]))
    by reflexivity.
  rewrite (bind_ok _ _ _ _ _ Hnew).
  erewrite bind_raise; [reflexivity|].
  cbn [PyFileConfigLoader.exec_script].
  erewrite bind_raise; [reflexivity|].
  pose proof (lookup_fresh h (OConfig ∅)) as Hconfig.
  destruct p as [|k' p].
  - cbn [Config.setattr_path].
    apply (setattr_name_error _ k v _ ∅ Hconfig). reflexivity.
  - destruct Hfirst as [Hp|Hclass]; [discriminate|].
    change (Config.setattr_path (VRef (List.length h)) (k :: k' :: p) v
              (h ++ [OConfig ∅]))
      with ((x <- Config.getattr (VRef (List.length h)) k ;;
             Config.setattr_path x (k' :: p) v) (h ++ [OConfig ∅])).
    apply bind_raise.
    unfold Config.getattr. rewrite Hconfig. simpl. rewrite Hclass.
    unfold Config.__getattr__, key_to_attribute_error.
    rewrite (bind_ok _ _ _ _ _
               (method_free _ "__getitem__" true _ ∅ Hconfig eq_refl)).
    reflexivity.
Qed.

(** The base script of the parent and child example, on the stock host. *)
Lemma script_starting_with_assignment_raises_name_error_witness :
  PyFileConfigLoader.load_config (H := Stock.host Stock.parent_and_child [])
    3 "base.py" ["/etc"] []
  = (Raise NameError, [OConfig ∅]).
Proof.
  apply (script_starting_with_assignment_raises_name_error
           (H := Stock.host Stock.parent_and_child [])
           2 "base.py" "/etc/base.py" "A" ["x"] ["/etc"] (VInt 1)
           [SLoadSubconfig "child.py" None] []).
  - reflexivity.
  - reflexivity.
  - right. reflexivity.
Defined.

(** ** Merging a config that holds no section *)

(** X23.  Merging a dictionary none of whose values is a [Config] comes
    down to one [dict.update]: the receiver gets every entry of the other
    (a key it had keeps its place and takes the other's value, a new key is
    added at the end, in the other's order), no other object changes, and
    the depth allowed for recursion does not matter.  This is for a
    receiver that stores no entry named [_is_section_key] or [update], an
    other that stores none named [items] and has distinct keys, and keys
    that start with an ASCII character. *)
Theorem merge_of_leaves_is_update (fuel : nat) (h : heap) (self other : loc)
    (d : dict) (oo : obj) :
  h !! self = Some (OConfig d) ->
  entries_get d "_is_section_key" = None ->
  entries_get d "update" = None ->
  h !! other = Some oo ->
  entries_get (obj_dict oo) "items" = None ->
  NoDup (obj_dict oo).*1 ->
  Forall (fun kv => (exists b, Config._is_section_key (fst kv) = Ok b)
                    /\ is_config h (snd kv) = false) (obj_dict oo) ->
  Config._merge (S fuel) self other h
  = (Ok tt, <[self := OConfig (entries_update d (obj_dict oo))]> h).
Proof.
  intros Hself Hfree Hupdate Hother Hitems Hdistinct Hleaves.
  rewrite (merge_leaves fuel h self other d oo) by assumption.
  rewrite (entries_update_distinct (obj_dict oo) []);
    [reflexivity| |exact Hdistinct].
  intros k _. reflexivity.
Qed.

(** [{"x": 1, "Level": 3}] with [{"Level": 10, "y": 2}] merged into it. *)
Lemma merge_of_leaves_is_update_witness :
  Config._merge 1 0 1
    [OConfig [("x", VInt 1); ("Level", VInt 3)];
     OConfig [("Level", VInt 10); ("y", VInt 2)]]
  = (Ok tt,
     [OConfig [("x", VInt 1); ("Level", VInt 10); ("y", VInt 2)];
      OConfig [("Level", VInt 10); ("y", VInt 2)]]).
Proof.
  apply (merge_of_leaves_is_update 0
           [OConfig [("x", VInt 1); ("Level", VInt 3)];
            OConfig [("Level", VInt 10); ("y", VInt 2)]] 0 1
           [("x", VInt 1); ("Level", VInt 3)]
           (OConfig [("Level", VInt 10); ("y", VInt 2)]));
    try reflexivity.
  - apply (bool_decide_unpack _). vm_compute. exact I.
  - repeat (apply Forall_cons; split; [split; [eexists|]; reflexivity|]).
    apply Forall_nil. exact I.
Defined.
